(** * Tap / boost / referral / quest-claim core of the tap-to-earn backend

    A shallow embedding of the request handlers of
    [controllers/userController.js] ([tap], [boost], [distributeReferralXP])
    and [routes/questRoutes.js] (the [POST /claim/:questId] handler and
    [verifyQuestCompletion]), followed by the properties the specification
    states about them.  The other handlers of the two files that can be
    told from their source ([getCooldownStatus], [upgradeGPU],
    [updateProfile]; the listing, the creation and the deletion of quests)
    come after, with properties of their own and of their interplay with
    the first ones.

    Conventions of the embedding:
    - a JavaScript number that the code only ever uses as an integer counter
      is a [Z]; [%] is [Z.rem] (the sign follows the dividend, as in JS);
    - a [Date] is its millisecond time stamp, a nullable [Date] an [option Z];
    - a value that may be [undefined]/[null] is an [option];
    - a Mongo collection is the list of its documents; [save] overwrites the
      documents that carry the same [_id];
    - an [async] function is a function of the store that either completes
      normally or throws, the store keeps every effect made before the throw;
    - [logger] calls append to a log that is part of the store. *)

From Stdlib Require Import ZArith QArith Qround List String Bool Lia.
Import ListNotations.
Local Open Scope string_scope.
Local Open Scope list_scope.
Local Open Scope Z_scope.

Set Implicit Arguments.

(** ** Documents *)

Module User.

Record t : Type := mk {
  _id : Z;
  telegramId : Z;
  username : string;
  xp : Z;
  compute : Z;
  computePower : Z;
  totalTaps : Z;
  gpuLevel : Z;
  level : option Z;
  cooldownEndTime : option Z;
  boostCount : Z;
  lastTapTime : option Z;
  lastBoostTime : option Z;
  completedQuests : list string;
  referredBy : option Z
}.

(** Field assignments [user.f = v]. *)
Definition set_xp (v : Z) (u : t) : t :=
  mk (_id u) (telegramId u) (username u) v (compute u) (computePower u)
     (totalTaps u) (gpuLevel u) (level u) (cooldownEndTime u) (boostCount u)
     (lastTapTime u) (lastBoostTime u) (completedQuests u) (referredBy u).
Definition set_compute (v : Z) (u : t) : t :=
  mk (_id u) (telegramId u) (username u) (xp u) v (computePower u)
     (totalTaps u) (gpuLevel u) (level u) (cooldownEndTime u) (boostCount u)
     (lastTapTime u) (lastBoostTime u) (completedQuests u) (referredBy u).
Definition set_computePower (v : Z) (u : t) : t :=
  mk (_id u) (telegramId u) (username u) (xp u) (compute u) v
     (totalTaps u) (gpuLevel u) (level u) (cooldownEndTime u) (boostCount u)
     (lastTapTime u) (lastBoostTime u) (completedQuests u) (referredBy u).
Definition set_totalTaps (v : Z) (u : t) : t :=
  mk (_id u) (telegramId u) (username u) (xp u) (compute u) (computePower u)
     v (gpuLevel u) (level u) (cooldownEndTime u) (boostCount u)
     (lastTapTime u) (lastBoostTime u) (completedQuests u) (referredBy u).
Definition set_gpuLevel (v : Z) (u : t) : t :=
  mk (_id u) (telegramId u) (username u) (xp u) (compute u) (computePower u)
     (totalTaps u) v (level u) (cooldownEndTime u) (boostCount u)
     (lastTapTime u) (lastBoostTime u) (completedQuests u) (referredBy u).
Definition set_cooldownEndTime (v : option Z) (u : t) : t :=
  mk (_id u) (telegramId u) (username u) (xp u) (compute u) (computePower u)
     (totalTaps u) (gpuLevel u) (level u) v (boostCount u)
     (lastTapTime u) (lastBoostTime u) (completedQuests u) (referredBy u).
Definition set_boostCount (v : Z) (u : t) : t :=
  mk (_id u) (telegramId u) (username u) (xp u) (compute u) (computePower u)
     (totalTaps u) (gpuLevel u) (level u) (cooldownEndTime u) v
     (lastTapTime u) (lastBoostTime u) (completedQuests u) (referredBy u).
Definition set_lastTapTime (v : option Z) (u : t) : t :=
  mk (_id u) (telegramId u) (username u) (xp u) (compute u) (computePower u)
     (totalTaps u) (gpuLevel u) (level u) (cooldownEndTime u) (boostCount u)
     v (lastBoostTime u) (completedQuests u) (referredBy u).
Definition set_lastBoostTime (v : option Z) (u : t) : t :=
  mk (_id u) (telegramId u) (username u) (xp u) (compute u) (computePower u)
     (totalTaps u) (gpuLevel u) (level u) (cooldownEndTime u) (boostCount u)
     (lastTapTime u) v (completedQuests u) (referredBy u).
Definition set_completedQuests (v : list string) (u : t) : t :=
  mk (_id u) (telegramId u) (username u) (xp u) (compute u) (computePower u)
     (totalTaps u) (gpuLevel u) (level u) (cooldownEndTime u) (boostCount u)
     (lastTapTime u) (lastBoostTime u) v (referredBy u).

(** [User.findOne({ telegramId })] and [User.findById(id)] on the
    collection: the first matching document, [None] for JS [null]. *)
Definition findOneByTelegramId (tid : Z) (coll : list t) : option t :=
  find (fun u => telegramId u =? tid) coll.
Definition findById (id : Z) (coll : list t) : option t :=
  find (fun u => _id u =? id) coll.

(** [doc.save()]: the stored document with this [_id] becomes [doc]. *)
Definition save (doc : t) (coll : list t) : list t :=
  map (fun u => if _id u =? _id doc then doc else u) coll.

End User.

Module Quest.

(** A quest document, with the paths of [questSchema] ([models/Quest.js]):
    [title], [description], [xpReward], [type], [expiresAt].  [type] stays a
    string: [verifyQuestCompletion] switches on it with a [default] arm, and
    a stored document is not validated when it is read. *)
Record t : Type := mk {
  _id : string;
  title : string;
  description : string;
  xpReward : Z;
  type : string;
  expiresAt : Z
}.

(** [quest.action], [quest.targetId], [quest.requirement]: the schema
    declares none of these paths, so reading them on a quest document gives
    [undefined], whatever the document. *)
Definition action (quest : t) : option string := None.
Definition targetId (quest : t) : option string := None.
Definition requirement (quest : t) : option Z := None.

(** [Quest.findById(id)] for an [id] that is the string of an [ObjectId],
    as the [_id] of every stored quest is: the document with this [_id],
    [None] for JS [null]. *)
Definition findById (id : string) (coll : list t) : option t :=
  find (fun q => String.eqb (_id q) id) coll.

End Quest.

Module Referral.

(** Modelled from the spec: [models/Referral.js] is missing; an edge
    [(referrer, referred)] with the cumulative counter
    [totalRewardsDistributed]. *)
Record t : Type := mk {
  referrer : Z;
  referred : Z;
  totalRewardsDistributed : Z
}.

(** [findOneAndUpdate({referrer, referred}, {$inc: {totalRewardsDistributed}})]
    without [upsert]: the first matching edge is incremented, nothing
    happens when there is none. *)
Fixpoint incFirst (r d : Z) (delta : Z) (coll : list t) : list t :=
  match coll with
  | [] => []
  | e :: rest =>
      if (referrer e =? r) && (referred e =? d)
      then mk r d (totalRewardsDistributed e + delta) :: rest
      else e :: incFirst r d delta rest
  end.

End Referral.

Module Leaderboard.

Inductive window : Type := daily | weekly | all_time.

Definition window_eqb (a b : window) : bool :=
  match a, b with
  | daily, daily | weekly, weekly | all_time, all_time => true
  | _, _ => false
  end.

(** Modelled from the spec: [models/Leaderboard.js] is missing; an entry
    is keyed by [(window, periodStart, userId)] and holds the denormalised
    [username] and a [score]. *)
Record t : Type := mk {
  type : window;
  periodStart : Z;
  user : Z;
  username : string;
  score : Z
}.

Definition same_key (w : window) (p u : Z) (e : t) : bool :=
  window_eqb (type e) w && (periodStart e =? p) && (user e =? u).

(** Modelled from the spec: [updateEntry] upserts the entry of its key,
    setting [username] and [score]. *)
Fixpoint upsert (w : window) (p u : Z) (name : string) (s : Z)
    (coll : list t) : list t :=
  match coll with
  | [] => [mk w p u name s]
  | e :: rest =>
      if same_key w p u e then mk w p u name s :: rest
      else e :: upsert w p u name s rest
  end.

End Leaderboard.

(** ** Store, completions and the [async] monad *)

Inductive LogEntry : Type :=
| InfoTapRejected (telegramId : Z)
| InfoCooldownInitiated (telegramId : Z)
| InfoGpuUpgraded (telegramId : Z) (newLevel : Z)
| InfoSuccessfulTap (telegramId : Z)
| InfoDistributed (referralXP : Z) (referrerId : Z) (tier : Z)
| InfoQuestClaimed (telegramId : Z) (questId : string)
| ErrorDistributing (message : string)
| ErrorTap (message : string)
| ErrorBoost (message : string)
| ErrorClaimingQuest (message : string).

Record World : Type := mkWorld {
  users : list User.t;
  quests : list Quest.t;
  referrals : list Referral.t;
  leaderboard : list Leaderboard.t;
  logs : list LogEntry
}.

Definition with_users (us : list User.t) (w : World) : World :=
  mkWorld us (quests w) (referrals w) (leaderboard w) (logs w).
Definition with_referrals (rs : list Referral.t) (w : World) : World :=
  mkWorld (users w) (quests w) rs (leaderboard w) (logs w).
Definition with_leaderboard (lb : list Leaderboard.t) (w : World) : World :=
  mkWorld (users w) (quests w) (referrals w) lb (logs w).
Definition with_logs (ls : list LogEntry) (w : World) : World :=
  mkWorld (users w) (quests w) (referrals w) (leaderboard w) ls.

(** How a JavaScript computation ends. *)
Inductive Completion (A : Type) : Type :=
| Normal (a : A)
| Throw (message : string).
Arguments Throw {A} message.

Definition Async (A : Type) : Type := World -> Completion A * World.

Definition ret {A} (a : A) : Async A := fun w => (Normal a, w).
Definition throw {A} (message : string) : Async A := fun w => (Throw message, w).
Definition bind {A B} (m : Async A) (k : A -> Async B) : Async B :=
  fun w =>
    match m w with
    | (Normal a, w1) => k a w1
    | (Throw e, w1) => (Throw e, w1)
    end.

(** [try { body } catch (error) { handler }]. *)
Definition try_catch {A} (body : Async A) (handler : string -> Async A) : Async A :=
  fun w =>
    match body w with
    | (Normal a, w1) => (Normal a, w1)
    | (Throw e, w1) => handler e w1
    end.

Declare Scope async_scope.
Delimit Scope async_scope with async.
Notation "x <- m ;; k" := (bind m (fun x => k))
  (at level 100, m at next level, right associativity) : async_scope.
Notation "m ;; k" := (bind m (fun _ => k))
  (at level 100, right associativity) : async_scope.
Local Open Scope async_scope.

(** [Promise.all]: every call of the array has been started, so each one
    runs to its end; the result rejects with a rejection of the array (the
    first in array order here) and fulfils when none rejects. *)
Fixpoint Promise_all (calls : list (Async unit)) : Async unit :=
  match calls with
  | [] => ret tt
  | call :: rest =>
      fun w =>
        match call w with
        | (Normal _, w1) => Promise_all rest w1
        | (Throw e, w1) => (Throw e, snd (Promise_all rest w1))
        end
  end.

Definition logger (entry : LogEntry) : Async unit :=
  fun w => (Normal tt, with_logs (logs w ++ [entry]) w).

(** Persistence calls. *)
Definition User_findOne_telegramId (tid : Z) : Async (option User.t) :=
  fun w => (Normal (User.findOneByTelegramId tid (users w)), w).
Definition User_findById (id : option Z) : Async (option User.t) :=
  fun w =>
    (Normal match id with
            | Some i => User.findById i (users w)
            | None => None
            end, w).
Definition User_save (doc : User.t) : Async unit :=
  fun w => (Normal tt, with_users (User.save doc (users w)) w).
Definition Quest_findById (id : string) : Async (option Quest.t) :=
  fun w => (Normal (Quest.findById id (quests w)), w).
Definition Referral_findOneAndUpdate_inc (r d delta : Z) : Async unit :=
  fun w => (Normal tt, with_referrals (Referral.incFirst r d delta (referrals w)) w).

(** What a handler cannot see in the store: the clock and the collaborators
    whose code is elsewhere. *)
Record Env : Type := mkEnv {
  (** [new Date()] at the start of the handler *)
  now : Z;
  (** local midnight of the day of the tap: [today.setHours(0, 0, 0, 0)] *)
  today : Z;
  (** [today] moved back by [today.getDay()] days *)
  weekStart : Z;
  (** [new Date(2000, 0, 1)] *)
  allTimeDate : Z;
  (** [Some e] when [Leaderboard.updateEntry] rejects with message [e]
      for this window *)
  updateEntryFails : Leaderboard.window -> option string;
  (** the membership check of [utils/questVerification] *)
  verifyTelegramQuest : string -> string -> Z -> Completion bool
}.

Definition Leaderboard_updateEntry (env : Env) (w : Leaderboard.window)
    (periodStart userId : Z) (username : string) (score : Z) : Async unit :=
  match updateEntryFails env w with
  | Some e => throw e
  | None =>
      fun s => (Normal tt,
                with_leaderboard
                  (Leaderboard.upsert w periodStart userId username score
                     (leaderboard s)) s)
  end.

(** Responses: [res.status(s).json(b)]; [res.json(b)] has status 200. *)
Record TapSnapshot : Type := mkTapSnapshot {
  snap_xp : Z;
  snap_compute : Z;
  snap_totalTaps : Z;
  snap_computePower : Z;
  snap_gpuLevel : Z;
  snap_cooldownEndTime : option Z;
  snap_boostCount : Z
}.

Record BoostSnapshot : Type := mkBoostSnapshot {
  bsnap_xp : Z;
  bsnap_compute : Z;
  bsnap_totalTaps : Z;
  bsnap_boostCount : Z;
  bsnap_lastBoostTime : option Z
}.

Inductive Body : Type :=
| Message (message : string)
| MessageError (message error : string)
| CoolingDown (message : string) (cooldownEndTime : Z)
| TapSuccessful (message : string) (user : TapSnapshot)
| BoostActivated (message : string) (user : BoostSnapshot)
| NotJoined (message : string) (joined : bool)
| QuestClaimed (message : string) (xp : Z).

Record Response : Type := json { status : Z; body : Body }.

(** ** controllers/userController.js *)

Module UserController.

(** The names the module binds at its top:
    [User], [Leaderboard], [{ verifyTelegramWebAppData }], [logger],
    [{ calculateReferralReward }], and its own [distributeReferralXP]. *)
Definition moduleScope : list string :=
  ["User"; "Leaderboard"; "verifyTelegramWebAppData"; "logger";
   "calculateReferralReward"; "distributeReferralXP"].

(** Evaluating an identifier: a name that no enclosing scope binds (and
    that is no global of the runtime) throws a ReferenceError. *)
Definition identifier (scope : list string) (name : string) : Async unit :=
  if existsb (String.eqb name) scope then ret tt
  else throw (name ++ " is not defined")%string.

(** [[0.1, 0.05, 0.025]]; the products [xpGained * percentage] are taken
    exactly, which is what [Math.floor] of the double product gives for the
    non-negative integer gains of a tap. *)
Definition tierPercentages : list Q := [1 # 10; 5 # 100; 25 # 1000]%Q.

(** The [while (currentReferrer && currentTier <= 3)] loop; [scope] is what
    the body's free identifiers are looked up in.  [tiers] bounds the number
    of rounds (see [referralLoop_tiers_enough]). *)
Fixpoint referralLoop (scope : list string) (tiers : nat) (xpGained : Z)
    (user : User.t) (currentReferrer : option User.t) (currentTier : Z)
    : Async unit :=
  match tiers with
  | O => ret tt
  | S tiers' =>
      match currentReferrer with
      | None => ret tt
      | Some referrer =>
          if currentTier <=? 3 then
            let referralXP :=
              Qfloor (inject_Z xpGained *
                      nth (Z.to_nat (currentTier - 1)) tierPercentages 0%Q)%Q in
            let referrer := User.set_xp (User.xp referrer + referralXP) referrer in
            identifier scope "Referral" ;;
            Referral_findOneAndUpdate_inc (User._id referrer) (User._id user)
              referralXP ;;
            User_save referrer ;;
            logger (InfoDistributed referralXP (User._id referrer) currentTier) ;;
            next <- User_findById (User.referredBy referrer) ;;
            referralLoop scope tiers' xpGained user next (currentTier + 1)
          else ret tt
      end
  end.

(** [User.findById(userId).populate('referredBy')], then the loop, all inside
    [try { ... } catch (error) { logger.error(...) }]. *)
Definition distributeReferralXP_in (scope : list string) (userId xpGained : Z)
    : Async unit :=
  try_catch
    (user <- User_findById (Some userId) ;;
     match user with
     | None => ret tt
     | Some user =>
         populated <- User_findById (User.referredBy user) ;;
         match populated with
         | None => ret tt
         | Some referrer => referralLoop scope 3 xpGained user (Some referrer) 1
         end
     end)
    (fun error => logger (ErrorDistributing error)).

Definition distributeReferralXP : Z -> Z -> Async unit :=
  distributeReferralXP_in moduleScope.

(** [user.cooldownEndTime && now < user.cooldownEndTime]: the end time when
    the guard holds. *)
Definition coolingDown (now : Z) (user : User.t) : option Z :=
  match User.cooldownEndTime user with
  | Some t => if now <? t then Some t else None
  | None => None
  end.

Definition snapshot (user : User.t) : TapSnapshot :=
  mkTapSnapshot (User.xp user) (User.compute user) (User.totalTaps user)
    (User.computePower user) (User.gpuLevel user) (User.cooldownEndTime user)
    (User.boostCount user).

(** [exports.tap]; [telegramId] is [req.user.telegramId]. *)
Definition tap (env : Env) (telegramId : Z) : Async Response :=
  try_catch
    (found <- User_findOne_telegramId telegramId ;;
     match found with
     | None => ret (json 404 (Message "User not found"))
     | Some user =>
         let now := now env in
         match coolingDown now user with
         | Some t =>
             logger (InfoTapRejected (User.telegramId user)) ;;
             ret (json 400 (CoolingDown "Cooling down" t))
         | None =>
             let user := User.set_totalTaps (User.totalTaps user + 1) user in
             let xpGained := User.computePower user in
             let user := User.set_xp (User.xp user + xpGained) user in
             let user := User.set_compute (User.compute user + xpGained) user in
             let user := User.set_lastTapTime (Some now) user in
             user <- (if Z.rem (User.totalTaps user) 500 =? 0 then
                        logger (InfoCooldownInitiated (User.telegramId user)) ;;
                        ret (User.set_cooldownEndTime (Some (now + 10 * 1000)) user)
                      else ret user) ;;
             user <- (if User.xp user >=? (User.gpuLevel user + 1) * 25000 then
                        let user := User.set_gpuLevel (User.gpuLevel user + 1) user in
                        let user :=
                          User.set_computePower (User.computePower user + 1) user in
                        logger (InfoGpuUpgraded (User.telegramId user)
                                  (User.gpuLevel user)) ;;
                        ret user
                      else ret user) ;;
             let user := if Z.rem (User.xp user) 2000 =? 0
                         then User.set_boostCount (User.boostCount user + 1) user
                         else user in
             User_save user ;;
             distributeReferralXP (User._id user) xpGained ;;
             Promise_all
               [Leaderboard_updateEntry env Leaderboard.daily (today env)
                  (User._id user) (User.username user) (User.compute user);
                Leaderboard_updateEntry env Leaderboard.weekly (weekStart env)
                  (User._id user) (User.username user) (User.compute user);
                Leaderboard_updateEntry env Leaderboard.all_time (allTimeDate env)
                  (User._id user) (User.username user) (User.computePower user)] ;;
             logger (InfoSuccessfulTap (User.telegramId user)) ;;
             ret (json 200 (TapSuccessful "Tap successful" (snapshot user)))
         end
     end)
    (fun error =>
       logger (ErrorTap error) ;;
       ret (json 500 (MessageError "Server error" error))).

(** [exports.boost]. *)
Definition boost (env : Env) (telegramId : Z) : Async Response :=
  try_catch
    (found <- User_findOne_telegramId telegramId ;;
     match found with
     | None => ret (json 404 (Message "User not found"))
     | Some user =>
         if User.boostCount user <? 1 then
           ret (json 400 (Message "No boost available"))
         else
           let now := now env in
           let boostDuration := 10 * 1000 in
           let tapsPerSecond := 10 in
           let totalBoostTaps := tapsPerSecond * (boostDuration / 1000) in
           let user := User.set_boostCount (User.boostCount user - 1) user in
           let user := User.set_lastBoostTime (Some now) user in
           let user := User.set_totalTaps (User.totalTaps user + totalBoostTaps) user in
           let xpGained := totalBoostTaps * User.computePower user in
           let user := User.set_xp (User.xp user + xpGained) user in
           let user := User.set_compute (User.compute user + xpGained) user in
           let user := User.set_cooldownEndTime None user in
           User_save user ;;
           ret (json 200
                  (BoostActivated "Boost activated"
                     (mkBoostSnapshot (User.xp user) (User.compute user)
                        (User.totalTaps user) (User.boostCount user)
                        (User.lastBoostTime user))))
     end)
    (fun error =>
       logger (ErrorBoost error) ;;
       ret (json 500 (MessageError "Server error" error))).

End UserController.

(** ** routes/questRoutes.js *)

Module QuestRoutes.

(** Truthiness of an optional string ([undefined] and the empty string are
    falsy) and of a numeric id ([0] is falsy). *)
Definition truthy (s : option string) : bool :=
  match s with
  | Some s => negb (String.eqb s "")
  | None => false
  end.

Definition orEmpty (s : option string) : string :=
  match s with
  | Some s => s
  | None => ""
  end.

(** [a >= b] on numbers that may be [undefined]: false as soon as one is. *)
Definition geq (a b : option Z) : bool :=
  match a, b with
  | Some a, Some b => a >=? b
  | _, _ => false
  end.

(** [verifyQuestCompletion(user, quest)]. *)
Definition verifyQuestCompletion (env : Env) (user : option User.t)
    (quest : option Quest.t) : Async bool :=
  match user, quest with
  | Some user, Some quest =>
      let type := Quest.type quest in
      if String.eqb type "daily" || String.eqb type "weekly" then ret true
      else if String.eqb type "twitter" then ret true
      else if String.eqb type "telegram" then
        if negb (truthy (Quest.action quest))
           || negb (truthy (Quest.targetId quest))
           || (User.telegramId user =? 0)
        then throw "Missing data"
        else
          fun w =>
            (verifyTelegramQuest env (orEmpty (Quest.action quest))
               (orEmpty (Quest.targetId quest)) (User.telegramId user), w)
      else if String.eqb type "discord" then ret true
      else if String.eqb type "tap" then
        ret (geq (Some (User.totalTaps user)) (Quest.requirement quest))
      else if String.eqb type "level" then
        ret (geq (User.level user) (Quest.requirement quest))
      else if String.eqb type "leaderboard" then ret true
      else if String.eqb type "referral" then ret true
      else if String.eqb type "achievement" then ret true
      else throw "Unknown quest type"
  | _, _ => throw "User or quest is undefined"
  end.

(** The [POST /claim/:questId] handler; [telegramId] is
    [req.user.telegramId], [questId] is [req.params.questId].  The
    [console.log] of the handler writes to no log of the store and is left
    out. *)
Definition claimQuest (env : Env) (telegramId : Z) (questId : string)
    : Async Response :=
  try_catch
    (found <- User_findOne_telegramId telegramId ;;
     match found with
     | None => ret (json 404 (Message "User not found"))
     | Some user =>
         quest <- Quest_findById questId ;;
         match quest with
         | None => ret (json 404 (Message "Quest not found"))
         | Some quest =>
             if existsb (String.eqb questId) (User.completedQuests user) then
               ret (json 400 (Message "Quest already claimed"))
             else
               verified <- verifyQuestCompletion env (Some user) (Some quest) ;;
               if negb verified && String.eqb (Quest.type quest) "telegram" then
                 ret (json 400
                        (NotJoined "User has not joined telegram channel" false))
               else
                 let user :=
                   User.set_xp (User.xp user + Quest.xpReward quest) user in
                 let user :=
                   User.set_completedQuests
                     (User.completedQuests user ++ [questId]) user in
                 User_save user ;;
                 logger (InfoQuestClaimed (User.telegramId user) questId) ;;
                 ret (json 200
                        (QuestClaimed "Quest claimed successfully" (User.xp user)))
         end
     end)
    (fun error =>
       logger (ErrorClaimingQuest error) ;;
       ret (json 500 (MessageError "Error claiming quest" error))).

End QuestRoutes.

(** ** Summaries used by the statements *)

(** The document [tap] holds in memory when it reaches [user.save()]:
    the assignments of the handler between the cooldown guard and the save,
    without the log lines. *)
Definition tapped (now : Z) (user : User.t) : User.t :=
  let user := User.set_totalTaps (User.totalTaps user + 1) user in
  let xpGained := User.computePower user in
  let user := User.set_xp (User.xp user + xpGained) user in
  let user := User.set_compute (User.compute user + xpGained) user in
  let user := User.set_lastTapTime (Some now) user in
  let user := if Z.rem (User.totalTaps user) 500 =? 0
              then User.set_cooldownEndTime (Some (now + 10 * 1000)) user
              else user in
  let user := if User.xp user >=? (User.gpuLevel user + 1) * 25000
              then User.set_computePower (User.computePower user + 1)
                     (User.set_gpuLevel (User.gpuLevel user + 1) user)
              else user in
  if Z.rem (User.xp user) 2000 =? 0
  then User.set_boostCount (User.boostCount user + 1) user
  else user.

(** The document [boost] saves. *)
Definition boosted (now : Z) (user : User.t) : User.t :=
  let user := User.set_boostCount (User.boostCount user - 1) user in
  let user := User.set_lastBoostTime (Some now) user in
  let user := User.set_totalTaps (User.totalTaps user + 100) user in
  let xpGained := 100 * User.computePower user in
  let user := User.set_xp (User.xp user + xpGained) user in
  let user := User.set_compute (User.compute user + xpGained) user in
  User.set_cooldownEndTime None user.

(** The store a computation leaves, and its response. *)
Definition after {A} (m : Async A) (w : World) : World := snd (m w).
Definition response {A} (m : Async A) (w : World) : Completion A := fst (m w).

(** One tap request per element of [envs], one after the other; the
    responses come back in order of the requests. *)
Fixpoint tapRun (envs : list Env) (telegramId : Z) (w : World)
    : list (Completion Response) * World :=
  match envs with
  | [] => ([], w)
  | env :: rest =>
      let '(r, w1) := UserController.tap env telegramId w in
      let '(rs, w2) := tapRun rest telegramId w1 in
      (r :: rs, w2)
  end.

Definition succeeded (r : Completion Response) : Prop :=
  exists b, r = Normal (json 200 b).

(** The cooldown of [user] is running at time [now]. *)
Definition cooldownActive (now : Z) (user : User.t) : Prop :=
  exists t, User.cooldownEndTime user = Some t /\ now < t.

(** Sample data for the concrete instances: a player document, a store that
    holds only players, and an environment where every collaborator works. *)
Definition player (id telegramId xp computePower totalTaps gpuLevel : Z)
    (cooldownEndTime : option Z) (boostCount : Z) (referredBy : option Z)
    : User.t :=
  User.mk id telegramId "player" xp 0 computePower totalTaps gpuLevel None
    cooldownEndTime boostCount None None [] referredBy.

Definition storeOf (players : list User.t) : World :=
  mkWorld players [] [] [] [].

Definition quietEnv (now : Z) : Env :=
  mkEnv now 0 0 0 (fun _ => None) (fun _ _ _ => Normal true).

(** A chain of referrals: player 1 was referred by 2, 2 by 3, 3 by 4 and
    4 by 5, with the edge of the direct referral on record. *)
Definition referralChain : World :=
  mkWorld
    [player 1 11 0 1 0 0 None 0 (Some 2);
     player 2 12 0 1 0 0 None 0 (Some 3);
     player 3 13 0 1 0 0 None 0 (Some 4);
     player 4 14 0 1 0 0 None 0 (Some 5);
     player 5 15 0 1 0 0 None 0 None]
    [] [Referral.mk 2 1 0] [] [].



(** The [xp] a player of the store holds. *)
Definition xpOf (id : Z) (w : World) : option Z :=
  option_map User.xp (User.findById id (users w)).

(** The document the claim handler saves, and what it means that a claim
    request credited the quest. *)
Definition claimed (questId : string) (quest : Quest.t) (user : User.t)
    : User.t :=
  User.set_completedQuests (User.completedQuests user ++ [questId])
    (User.set_xp (User.xp user + Quest.xpReward quest) user).

Definition credited (env : Env) (telegramId : Z) (questId : string)
    (w : World) (user : User.t) (quest : Quest.t) : Prop :=
  response (QuestRoutes.claimQuest env telegramId questId) w
  = Normal (json 200
              (QuestClaimed "Quest claimed successfully"
                 (User.xp user + Quest.xpReward quest))) /\
  exists user',
    User.findOneByTelegramId telegramId
      (users (after (QuestRoutes.claimQuest env telegramId questId) w))
    = Some user' /\
    User.xp user' = User.xp user + Quest.xpReward quest /\
    User.completedQuests user' = User.completedQuests user ++ [questId].

(** A store with one player and one quest. *)
Definition questStore (user : User.t) (quest : Quest.t) : World :=
  mkWorld [user] [quest] [] [] [].



(** A response that is the cooldown rejection of a tap; the taps of a run
    that went past the cooldown guard. *)
Definition cooldownRejection (r : Completion Response) : bool :=
  match r with
  | Normal r => (status r =? 400) && match body r with
                                     | CoolingDown _ _ => true
                                     | _ => false
                                     end
  | Throw _ => false
  end.

Definition acceptedTaps (rs : list (Completion Response)) : nat :=
  List.length (filter (fun r => negb (cooldownRejection r)) rs).

(** Number of [Cooldown initiated] lines in a log. *)
Definition cooldownsInitiated (ls : list LogEntry) : nat :=
  List.length (filter (fun e => match e with
                           | InfoCooldownInitiated _ => true
                           | _ => false
                           end) ls).

(** ** Requests in sequence *)

(** The two state-changing requests of the tap engine, and a sequence of
    them sent by the same user. *)
Inductive Request : Type :=
| TapRequest (env : Env)
| BoostRequest (env : Env).

Definition serveOne (request : Request) (telegramId : Z) (w : World) : World :=
  match request with
  | TapRequest env => after (UserController.tap env telegramId) w
  | BoostRequest env => after (UserController.boost env telegramId) w
  end.

Fixpoint serve (requests : list Request) (telegramId : Z) (w : World) : World :=
  match requests with
  | [] => w
  | request :: rest => serve rest telegramId (serveOne request telegramId w)
  end.

(** The leaderboard entry of a key, if there is one. *)
Definition leaderboardEntry (win : Leaderboard.window) (periodStart userId : Z)
    (lb : list Leaderboard.t) : option Leaderboard.t :=
  find (Leaderboard.same_key win periodStart userId) lb.

(** The quest types [verifyQuestCompletion] has a [case] for, and the ones
    the [enum] of the Quest schema admits. *)
Definition verifierTypes : list string :=
  ["daily"; "weekly"; "twitter"; "telegram"; "discord"; "tap"; "level";
   "leaderboard"; "referral"; "achievement"].

Definition schemaTypes : list string := ["daily"; "weekly"; "bonus"].

(** A sequence of claim requests of one user, each with its environment. *)
Fixpoint claimRun (claims : list (Env * string)) (telegramId : Z) (w : World)
    : World :=
  match claims with
  | [] => w
  | (env, questId) :: rest =>
      claimRun rest telegramId
        (after (QuestRoutes.claimQuest env telegramId questId) w)
  end.

(** The reward of a quest id in a store (0 when there is no such quest),
    and the total over a list of ids. *)
Definition rewardOf (w : World) (questId : string) : Z :=
  match Quest.findById questId (quests w) with
  | Some quest => Quest.xpReward quest
  | None => 0
  end.

Definition totalReward (w : World) (questIds : list string) : Z :=
  fold_right (fun questId total => rewardOf w questId + total) 0 questIds.

(** ** The other handlers: journal, replies and their monad

    The handlers below log lines of their own and answer with bodies of
    their own; their log is the [journal], kept beside the store of the
    handlers above, and a handler is a function of that pair. *)

Inductive JournalEntry : Type :=
| WarnNoUserForCooldownStatus (id : Z)
| InfoCooldownStatusRetrieved (telegramId : Z)
| ErrorGetCooldownStatus (message : string)
| WarnNoUserForGpuUpgrade (id : Z)
| InfoGpuUpgradedFor (telegramId : Z) (newComputePower : Z)
| ErrorUpgradeGpu (message : string)
| WarnInvalidUpdateAttempt (telegramId : Z)
| InfoProfileUpdated (telegramId : Z)
| ErrorUpdateProfile (message : string)
| ErrorFetchingQuests (message : string)
| InfoNewQuestCreated (id : string)
| ErrorCreatingQuest (message : string)
| InfoQuestDeleted (id : string)
| ErrorDeletingQuest (message : string).

Record Server : Type := mkServer {
  world : World;
  journal : list JournalEntry
}.

Definition Handler (A : Type) : Type := Server -> Completion A * Server.

Definition hret {A} (a : A) : Handler A := fun s => (Normal a, s).
Definition hthrow {A} (message : string) : Handler A :=
  fun s => (Throw message, s).
Definition hbind {A B} (m : Handler A) (k : A -> Handler B) : Handler B :=
  fun s =>
    match m s with
    | (Normal a, s1) => k a s1
    | (Throw e, s1) => (Throw e, s1)
    end.
Definition htry_catch {A} (body : Handler A) (handler : string -> Handler A)
    : Handler A :=
  fun s =>
    match body s with
    | (Normal a, s1) => (Normal a, s1)
    | (Throw e, s1) => handler e s1
    end.

(** A computation on the store, run inside a handler. *)
Definition lift {A} (m : Async A) : Handler A :=
  fun s => let (c, w) := m (world s) in (c, mkServer w (journal s)).

Definition journalLog (entry : JournalEntry) : Handler unit :=
  fun s => (Normal tt, mkServer (world s) (journal s ++ [entry])).

Declare Scope handler_scope.
Delimit Scope handler_scope with handler.
Notation "x <- m ;; k" := (hbind m (fun x => k))
  (at level 100, m at next level, right associativity) : handler_scope.
Notation "m ;; k" := (hbind m (fun _ => k))
  (at level 100, right associativity) : handler_scope.
Local Open Scope handler_scope.

(** A quest of the listing with its [claimed] flag. *)
Record ListedQuest : Type := mkListedQuest {
  listedQuest : Quest.t;
  listedClaimed : bool
}.

Inductive Payload : Type :=
| PMessage (message : string)
| PMessageError (message error : string)
| PError (error : string)
| PErrors (errors : list string)
| PCooldownStatus (cooldownEndTime : option Z) (isCoolingDown : bool)
| PGpuUpgraded (message : string) (newComputePower : Z)
| PQuests (quests : list ListedQuest)
| PQuest (quest : Quest.t)
| PUser (user : User.t).

Record Reply : Type := reply { code : Z; payload : Payload }.

Definition with_quests (qs : list Quest.t) (w : World) : World :=
  mkWorld (users w) qs (referrals w) (leaderboard w) (logs w).

(** [user.username = v]. *)
Definition set_username (v : string) (u : User.t) : User.t :=
  User.mk (User._id u) (User.telegramId u) v (User.xp u) (User.compute u)
    (User.computePower u) (User.totalTaps u) (User.gpuLevel u) (User.level u)
    (User.cooldownEndTime u) (User.boostCount u) (User.lastTapTime u)
    (User.lastBoostTime u) (User.completedQuests u) (User.referredBy u).

(** ** controllers/userController.js, the handlers keyed by [req.user] *)

Module UserControllerRest.

(** [user.cooldownEndTime > Date.now()]: a null end time counts as 0 in
    the comparison. *)
Definition isCoolingDown (now : Z) (user : User.t) : bool :=
  match User.cooldownEndTime user with
  | Some t => t >? now
  | None => 0 >? now
  end.

(** [exports.getCooldownStatus]; [reqUserId] is [req.user._id]. *)
Definition getCooldownStatus (env : Env) (reqUserId : Z) : Handler Reply :=
  htry_catch
    (found <- lift (User_findById (Some reqUserId)) ;;
     match found with
     | None =>
         journalLog (WarnNoUserForCooldownStatus reqUserId) ;;
         hret (reply 404 (PMessage "User not found"))
     | Some user =>
         journalLog (InfoCooldownStatusRetrieved (User.telegramId user)) ;;
         hret (reply 200
                 (PCooldownStatus (User.cooldownEndTime user)
                    (isCoolingDown (now env) user)))
     end)
    (fun error =>
       journalLog (ErrorGetCooldownStatus error) ;;
       hret (reply 500 (PMessageError "Server error" error))).

(** [exports.upgradeGPU]. *)
Definition upgradeGPU (reqUserId : Z) : Handler Reply :=
  htry_catch
    (found <- lift (User_findById (Some reqUserId)) ;;
     match found with
     | None =>
         journalLog (WarnNoUserForGpuUpgrade reqUserId) ;;
         hret (reply 404 (PMessage "User not found"))
     | Some user =>
         let user := User.set_computePower (User.computePower user + 1) user in
         lift (User_save user) ;;
         journalLog (InfoGpuUpgradedFor (User.telegramId user)
                       (User.computePower user)) ;;
         hret (reply 200
                 (PGpuUpgraded "GPU upgraded successfully"
                    (User.computePower user)))
     end)
    (fun error =>
       journalLog (ErrorUpgradeGpu error) ;;
       hret (reply 500 (PMessageError "Server error" error))).

Definition allowedUpdates : list string :=
  ["username"; "avatarUrl"; "language"; "theme"].

(** [req.user[update] = req.body[update]] on the fields a [User.t] carries:
    of the allowed paths only [username] is one of them, the other three
    name paths this development does not represent. *)
Definition assignPath (user : User.t) (update : string * string) : User.t :=
  if String.eqb (fst update) "username" then set_username (snd update) user
  else user.

(** [exports.updateProfile]; [reqUser] is the document [req.user], [body]
    the key-value pairs of [req.body] (a JS object: its keys are distinct). *)
Definition updateProfile (reqUser : User.t) (body : list (string * string))
    : Handler Reply :=
  htry_catch
    (let updates := map fst body in
     let isValidOperation :=
       forallb (fun update => existsb (String.eqb update) allowedUpdates)
         updates in
     if negb isValidOperation then
       journalLog (WarnInvalidUpdateAttempt (User.telegramId reqUser)) ;;
       hret (reply 400 (PError "Invalid updates!"))
     else
       let user := fold_left assignPath body reqUser in
       lift (User_save user) ;;
       journalLog (InfoProfileUpdated (User.telegramId user)) ;;
       hret (reply 200 (PUser user)))
    (fun error =>
       journalLog (ErrorUpdateProfile error) ;;
       hret (reply 500 (PMessageError "Server error" error))).

End UserControllerRest.

(** ** routes/questRoutes.js, listing, creation and deletion *)

(** A JSON field that should hold an integer. *)
Inductive IntField : Type :=
| IntAbsent
| IntInvalid
| IntValue (z : Z).

Module NewQuest.

(** [req.body] of [POST /]: the fields the validation chains name. *)
Record t : Type := mk {
  title : option string;
  description : option string;
  xpReward : IntField;
  type : option string;
  action : option string;
  platform : option string;
  targetId : option string;
  requirement : IntField;
  expiresAt : option string
}.

End NewQuest.

(** What the libraries decide and this development takes as given: the
    [trim] sanitizer and the ISO 8601 test of express-validator, the cast of
    a string to a [Date] by the schema, the [_id] a new document gets, the
    [message] of the [ValidationError] that [save()] rejects a body with,
    whether mongoose casts a string to an [ObjectId], and the [message] of
    its [CastError] when it does not. *)
Record Libraries : Type := mkLibraries {
  trim : string -> string;
  isISO8601 : string -> bool;
  castDate : string -> option Z;
  newObjectId : string;
  validationFailure : NewQuest.t -> string;
  castsToObjectId : string -> bool;
  castFailure : string -> string
}.

Module QuestRouter.

(** [GET /]: the quests that expire after now, each with [claimed] telling
    whether its [_id] is among the user's [completedQuests]. *)
Definition Quest_aggregate (now : Z) (completedQuests : list string)
    : Handler (list ListedQuest) :=
  fun s =>
    (Normal
       (map (fun q =>
               mkListedQuest q
                 (existsb (String.eqb (Quest._id q)) completedQuests))
          (filter (fun q => Quest.expiresAt q >? now) (quests (world s)))),
     s).

Definition listQuests (env : Env) (telegramId : Z) : Handler Reply :=
  htry_catch
    (found <- lift (User_findOne_telegramId telegramId) ;;
     match found with
     | None => hret (reply 404 (PMessage "User not found"))
     | Some user =>
         let completedQuests := User.completedQuests user in
         allQuests <- Quest_aggregate (now env) completedQuests ;;
         hret (reply 200 (PQuests allQuests))
     end)
    (fun error =>
       journalLog (ErrorFetchingQuests error) ;;
       hret (reply 500 (PMessageError "Error fetching quests" error))).

(** The validation chains of [POST /]. *)
Definition notEmpty (v : option string) : bool :=
  match v with
  | Some s => negb (String.eqb s "")
  | None => false
  end.

Definition isIn (allowed : list string) (v : option string) : bool :=
  match v with
  | Some s => existsb (String.eqb s) allowed
  | None => false
  end.

Definition isIntMin1 (v : IntField) : bool :=
  match v with
  | IntValue z => 1 <=? z
  | _ => false
  end.

Definition routeTypes : list string :=
  ["daily"; "weekly"; "twitter"; "telegram"; "discord"; "tap"; "level";
   "referral"; "achievement"; "leaderboard"].

Definition routeActions : list string :=
  ["follow"; "retweet"; "like"; "comment"; "join"; "tap"; "reach_level";
   "refer"; "login"; "unlock_skin"; "rank"].

Definition routePlatforms : list string := ["twitter"; "discord"; "telegram"].

(** The paths whose chain fails, in the order of the chains. *)
Definition validationErrors (lib : Libraries) (body : NewQuest.t) : list string :=
  (if notEmpty (NewQuest.title body) then [] else ["title"]) ++
  (if notEmpty (NewQuest.description body) then [] else ["description"]) ++
  (if isIntMin1 (NewQuest.xpReward body) then [] else ["xpReward"]) ++
  (if isIn routeTypes (NewQuest.type body) then [] else ["type"]) ++
  (if isIn routeActions (NewQuest.action body) then [] else ["action"]) ++
  (match NewQuest.platform body with
   | None => []
   | Some p => if isIn routePlatforms (Some p) then [] else ["platform"]
   end) ++
  (match NewQuest.requirement body with
   | IntAbsent => []
   | r => if isIntMin1 r then [] else ["requirement"]
   end) ++
  (match NewQuest.expiresAt body with
   | Some d => if isISO8601 lib d then [] else ["expiresAt"]
   | None => ["expiresAt"]
   end).

(** [new Quest(req.body)] followed by [save()]: the schema keeps its five
    paths and drops the rest of the body; [title] and [description] arrive
    trimmed by the sanitizers of their chains; validation wants the
    required paths present (a string non-empty), [type] in the schema's
    [enum] and [expiresAt] castable to a date, and rejects otherwise with
    a [ValidationError], whose [message] mongoose builds from the paths that
    failed. *)
Definition Quest_create (lib : Libraries) (body : NewQuest.t)
    : Handler Quest.t :=
  match option_map (trim lib) (NewQuest.title body),
        option_map (trim lib) (NewQuest.description body),
        NewQuest.xpReward body,
        NewQuest.type body,
        match NewQuest.expiresAt body with
        | Some d => castDate lib d
        | None => None
        end
  with
  | Some title, Some description, IntValue xpReward, Some type, Some expires =>
      if negb (String.eqb title "") && negb (String.eqb description "")
         && existsb (String.eqb type) schemaTypes
      then
        let doc := Quest.mk (newObjectId lib) title description xpReward type
                     expires in
        fun s =>
          (Normal doc,
           mkServer (with_quests (quests (world s) ++ [doc]) (world s))
             (journal s))
      else hthrow (validationFailure lib body)
  | _, _, _, _, _ => hthrow (validationFailure lib body)
  end.

(** The [POST /] handler, behind its validation chains. *)
Definition createQuest (lib : Libraries) (body : NewQuest.t) : Handler Reply :=
  match validationErrors lib body with
  | (_ :: _) as errors => hret (reply 400 (PErrors errors))
  | [] =>
      htry_catch
        (newQuest <- Quest_create lib body ;;
         journalLog (InfoNewQuestCreated (Quest._id newQuest)) ;;
         hret (reply 201 (PQuest newQuest)))
        (fun error =>
           journalLog (ErrorCreatingQuest error) ;;
           hret (reply 500 (PMessageError "Error creating quest" error)))
  end.




End QuestRouter.

Local Close Scope handler_scope.

(** A server around a store, with an empty journal. *)
Definition serverOf (w : World) : Server := mkServer w [].

(** A string of 24 hexadecimal digits, the form of an [ObjectId] in a URL. *)
Definition isHexDigit (c : Ascii.ascii) : bool :=
  let n := Ascii.nat_of_ascii c in
  (Nat.leb 48 n && Nat.leb n 57) || (Nat.leb 97 n && Nat.leb n 102)
  || (Nat.leb 65 n && Nat.leb n 70).

Definition isHex24 (s : string) : bool :=
  Nat.eqb (String.length s) 24 && forallb isHexDigit (list_ascii_of_string s).

Definition dquote : string := String (Ascii.ascii_of_nat 34) EmptyString.

(** The messages mongoose words for a [type] outside the schema's [enum]
    and for a string that is no [ObjectId]. *)
Definition typeEnumFailure (body : NewQuest.t) : string :=
  "Quest validation failed: type: `"
  ++ match NewQuest.type body with Some ty => ty | None => "" end
  ++ "` is not a valid enum value for path `type`.".

Definition objectIdCastFailure (id : string) : string :=
  "Cast to ObjectId failed for value " ++ dquote ++ id ++ dquote
  ++ " (type string) at path " ++ dquote ++ "_id" ++ dquote
  ++ " for model " ++ dquote ++ "Quest" ++ dquote.

(** Libraries for the concrete instances below, as far as these go: [trim]
    leaves their strings alone, their date strings are ISO 8601 and cast to
    [date], the one validation failure they meet is that of [type], and among
    their ids those of 24 hexadecimal digits cast to an [ObjectId]. *)
Definition plainLibraries (id : string) (date : Z) : Libraries :=
  mkLibraries (fun s => s) (fun _ => true) (fun _ => Some date) id
    typeEnumFailure isHex24 objectIdCastFailure.

(** The reply of a handler and the server it leaves. *)
Definition replyOf {A} (h : Handler A) (s : Server) : Completion A := fst (h s).
Definition serverAfter {A} (h : Handler A) (s : Server) : Server := snd (h s).

(** ** Facts about the store *)

Lemma findOneByTelegramId_telegramId (tid : Z) (coll : list User.t) (u : User.t) :
  User.findOneByTelegramId tid coll = Some u -> User.telegramId u = tid.
Proof.
  unfold User.findOneByTelegramId. intros H.
  apply find_some in H. destruct H as [_ H]. now apply Z.eqb_eq in H.
Qed.

Lemma findOneByTelegramId_save (tid : Z) (coll : list User.t) (u u' : User.t) :
  User.findOneByTelegramId tid coll = Some u ->
  User._id u' = User._id u ->
  User.telegramId u' = tid ->
  User.findOneByTelegramId tid (User.save u' coll) = Some u'.
Proof.
  unfold User.findOneByTelegramId, User.save. intros Hfind Hid Htid.
  induction coll as [|x coll IH]; simpl in *; [discriminate|].
  destruct (User._id x =? User._id u') eqn:Ex.
  - rewrite Htid, Z.eqb_refl. reflexivity.
  - destruct (User.telegramId x =? tid) eqn:Et.
    + injection Hfind as ->. rewrite Hid, Z.eqb_refl in Ex. discriminate.
    + now apply IH.
Qed.

Lemma tapped_id (now : Z) (u : User.t) :
  User._id (tapped now u) = User._id u /\
  User.telegramId (tapped now u) = User.telegramId u.
Proof.
  unfold tapped; cbn.
  repeat match goal with |- context [if ?c then _ else _] => destruct c end;
    cbn; auto.
Qed.

Lemma boosted_id (now : Z) (u : User.t) :
  User._id (boosted now u) = User._id u /\
  User.telegramId (boosted now u) = User.telegramId u.
Proof. unfold boosted; cbn; auto. Qed.

(** ** Referral propagation *)


(** With the module's own scope the loop body throws at [Referral] in its
    first round, before any write: only the log can change. *)
Lemma distributeReferralXP_store (userId xpGained : Z) (w : World) :
  exists ls,
    UserController.distributeReferralXP userId xpGained w
    = (Normal tt, with_logs (logs w ++ ls) w) /\
    cooldownsInitiated ls = 0%nat.
Proof.
  unfold UserController.distributeReferralXP, UserController.distributeReferralXP_in,
    try_catch, bind, User_findById.
  destruct (User.findById userId (users w)) as [user|].
  - destruct (match User.referredBy user with
              | Some i => User.findById i (users w)
              | None => None
              end) as [referrer|].
    + exists [ErrorDistributing "Referral is not defined"]. split; reflexivity.
    + exists []. unfold ret, with_logs. rewrite app_nil_r. destruct w; split; reflexivity.
  - exists []. unfold ret, with_logs. rewrite app_nil_r. destruct w; split; reflexivity.
Qed.


(** ** The tap handler *)

Lemma bind_run {A B} (m : Async A) (k : A -> Async B) (w : World) :
  bind m k w
  = match m w with
    | (Normal a, w1) => k a w1
    | (Throw e, w1) => (Throw e, w1)
    end.
Proof. reflexivity. Qed.

Lemma with_logs_nil (w : World) : with_logs (logs w ++ []) w = w.
Proof. destruct w; unfold with_logs; cbn. now rewrite app_nil_r. Qed.

(** [if (c) { logger(e); x = a }] seen as a computation of [x]. *)
Lemma guarded_log_run {A} (c : bool) (e : LogEntry) (a b : A) (w : World) :
  (if c then bind (logger e) (fun _ => ret a) else ret b) w
  = (Normal (if c then a else b),
     with_logs (logs w ++ (if c then [e] else [])) w).
Proof.
  destruct c; [reflexivity|]. unfold ret. now rewrite with_logs_nil.
Qed.

Lemma cooldownsInitiated_app (l1 l2 : list LogEntry) :
  cooldownsInitiated (l1 ++ l2)
  = (cooldownsInitiated l1 + cooldownsInitiated l2)%nat.
Proof. unfold cooldownsInitiated. now rewrite filter_app, length_app. Qed.

(** The three [updateEntry] calls under [Promise.all]: only the leaderboard
    collection changes; the result is a throw exactly when a call fails. *)
Lemma leaderboards_run (env : Env) (p1 p2 p3 id : Z) (name : string)
    (s1 s2 s3 : Z) (w : World) :
  exists (c : Completion unit) (lb : list Leaderboard.t),
    Promise_all
      [Leaderboard_updateEntry env Leaderboard.daily p1 id name s1;
       Leaderboard_updateEntry env Leaderboard.weekly p2 id name s2;
       Leaderboard_updateEntry env Leaderboard.all_time p3 id name s3] w
    = (c, with_leaderboard lb w) /\
    ((forall win, updateEntryFails env win = None) -> c = Normal tt) /\
    ((exists win, updateEntryFails env win <> None) ->
     exists win e, updateEntryFails env win = Some e /\ c = Throw e).
Proof.
  unfold Promise_all, Leaderboard_updateEntry, throw, ret.
  destruct (updateEntryFails env Leaderboard.daily) as [ed|] eqn:Ed;
    destruct (updateEntryFails env Leaderboard.weekly) as [ew|] eqn:Ew;
    destruct (updateEntryFails env Leaderboard.all_time) as [ea|] eqn:Ea;
    cbn [snd fst with_leaderboard users quests referrals leaderboard logs].
  all: do 2 eexists; split;
    [ first [ reflexivity
            | instantiate (1 := leaderboard w); destruct w; reflexivity ] |].
  all: split;
    [ intros Hall; rewrite ?Hall in *; try discriminate; reflexivity
    | intros [win Hwin] ].
  all: try (exists Leaderboard.daily, ed; split; [assumption|reflexivity]).
  all: try (exists Leaderboard.weekly, ew; split; [assumption|reflexivity]).
  all: try (exists Leaderboard.all_time, ea; split; [assumption|reflexivity]).
  exfalso; destruct win; congruence.
Qed.

Ltac break_if :=
  match goal with
  | |- context [if ?c then _ else _] => destruct c eqn:?
  end.

(** Reads of fields through the field assignments. *)
Ltac simpl_user :=
  cbn [User._id User.telegramId User.username User.xp User.compute
       User.computePower User.totalTaps User.gpuLevel User.level
       User.cooldownEndTime User.boostCount User.lastTapTime
       User.lastBoostTime User.completedQuests User.referredBy
       User.set_xp User.set_compute User.set_computePower User.set_totalTaps
       User.set_gpuLevel User.set_cooldownEndTime User.set_boostCount
       User.set_lastTapTime User.set_lastBoostTime User.set_completedQuests].

(** An accepted tap saves [tapped], leaves quests and referral edges alone,
    and answers according to the leaderboard calls. *)
Lemma tap_accepted (env : Env) (tid : Z) (w : World) (u : User.t) :
  User.findOneByTelegramId tid (users w) = Some u ->
  UserController.coolingDown (now env) u = None ->
  exists (r : Response) (lb : list Leaderboard.t) (ls : list LogEntry),
    UserController.tap env tid w
    = (Normal r,
       mkWorld (User.save (tapped (now env) u) (users w)) (quests w)
         (referrals w) lb (logs w ++ ls)) /\
    cooldownsInitiated ls
    = (if Z.rem (User.totalTaps u + 1) 500 =? 0 then 1%nat else 0%nat) /\
    ((forall win, updateEntryFails env win = None) ->
     r = json 200
           (TapSuccessful "Tap successful"
              (UserController.snapshot (tapped (now env) u)))) /\
    ((exists win, updateEntryFails env win <> None) ->
     exists win e,
       updateEntryFails env win = Some e /\
       r = json 500 (MessageError "Server error" e) /\
       In (ErrorTap e) ls).
Proof.
  intros Hfind Hcool.
  unfold UserController.tap, try_catch.
  rewrite bind_run. unfold User_findOne_telegramId at 1.
  rewrite Hfind. cbv beta iota zeta. rewrite Hcool. simpl_user.
  rewrite bind_run, guarded_log_run. cbv beta iota. simpl_user.
  rewrite bind_run, guarded_log_run. cbv beta iota. simpl_user.
  rewrite bind_run. unfold User_save at 1. cbv beta iota.
  rewrite bind_run.
  match goal with
  | |- context [UserController.distributeReferralXP ?i ?x ?w0] =>
      destruct (distributeReferralXP_store i x w0) as [ls [E C]]; rewrite E;
      clear E
  end.
  cbv beta iota. rewrite bind_run.
  match goal with
  | |- context [Promise_all [Leaderboard_updateEntry _ _ ?p1 ?i ?n ?s1;
                             Leaderboard_updateEntry _ _ ?p2 _ _ ?s2;
                             Leaderboard_updateEntry _ _ ?p3 _ _ ?s3] ?w0] =>
      destruct (leaderboards_run env p1 p2 p3 i n s1 s2 s3 w0)
        as (c & lb & E & Hok & Hfail); rewrite E; clear E
  end.
  destruct c as [[]|e]; cbv beta iota.
  - rewrite bind_run. unfold logger at 1, ret. cbv beta iota.
    exists (json 200 (TapSuccessful "Tap successful"
                        (UserController.snapshot (tapped (now env) u)))), lb.
    eexists. split; [|split; [|split]].
    + unfold tapped, with_logs, with_users, with_leaderboard.
      cbv zeta. simpl_user.
      cbn [users quests referrals leaderboard logs].
      rewrite <- !app_assoc. reflexivity.
    + rewrite !cooldownsInitiated_app, C. repeat break_if; reflexivity.
    + reflexivity.
    + intros Hex. destruct (Hfail Hex) as (win & e & _ & He). discriminate.
  - rewrite bind_run. unfold logger at 1, ret. cbv beta iota.
    exists (json 500 (MessageError "Server error" e)), lb.
    eexists. split; [|split; [|split]].
    + unfold tapped, with_logs, with_users, with_leaderboard.
      cbv zeta. simpl_user.
      cbn [users quests referrals leaderboard logs].
      rewrite <- !app_assoc. reflexivity.
    + rewrite !cooldownsInitiated_app, C. repeat break_if; reflexivity.
    + intros Hall. specialize (Hok Hall). discriminate.
    + intros Hex. destruct (Hfail Hex) as (win & e' & Hw & He).
      injection He as <-. exists win, e. split; [assumption|].
      split; [reflexivity|]. rewrite !in_app_iff. simpl. auto 10.
Qed.

Lemma updateEntryFails_cases (env : Env) :
  (forall win, updateEntryFails env win = None) \/
  (exists win, updateEntryFails env win <> None).
Proof.
  destruct (updateEntryFails env Leaderboard.daily) eqn:Ed;
    [right; exists Leaderboard.daily; congruence|].
  destruct (updateEntryFails env Leaderboard.weekly) eqn:Ew;
    [right; exists Leaderboard.weekly; congruence|].
  destruct (updateEntryFails env Leaderboard.all_time) eqn:Ea;
    [right; exists Leaderboard.all_time; congruence|].
  left. intros []; assumption.
Qed.

(** A tap during the cooldown answers 400 with the stored end time; the
    store only gains a log line. *)
Lemma tap_rejected (env : Env) (tid : Z) (w : World) (u : User.t) (t : Z) :
  User.findOneByTelegramId tid (users w) = Some u ->
  UserController.coolingDown (now env) u = Some t ->
  UserController.tap env tid w
  = (Normal (json 400 (CoolingDown "Cooling down" t)),
     with_logs (logs w ++ [InfoTapRejected (User.telegramId u)]) w).
Proof.
  intros Hfind Hcool.
  unfold UserController.tap, try_catch.
  rewrite bind_run. unfold User_findOne_telegramId at 1.
  rewrite Hfind. cbv beta iota zeta. rewrite Hcool. reflexivity.
Qed.

Lemma coolingDown_Some (now : Z) (u : User.t) (t : Z) :
  UserController.coolingDown now u = Some t <->
  User.cooldownEndTime u = Some t /\ now < t.
Proof.
  unfold UserController.coolingDown.
  destruct (User.cooldownEndTime u) as [t'|];
    [|split; [discriminate|intros [? _]; discriminate]].
  destruct (Z.ltb_spec now t'); split.
  - intros [= ->]. auto.
  - intros [[= ->] _]. reflexivity.
  - discriminate.
  - intros [[= ->] ?]. lia.
Qed.

(** The fields of the document an accepted tap saves. *)
Lemma tapped_fields (now : Z) (u : User.t) :
  User.totalTaps (tapped now u) = User.totalTaps u + 1 /\
  User.xp (tapped now u) = User.xp u + User.computePower u /\
  User.compute (tapped now u) = User.compute u + User.computePower u /\
  User.cooldownEndTime (tapped now u)
  = (if Z.rem (User.totalTaps u + 1) 500 =? 0
     then Some (now + 10 * 1000) else User.cooldownEndTime u) /\
  User.gpuLevel (tapped now u)
  = (if User.xp u + User.computePower u >=? (User.gpuLevel u + 1) * 25000
     then User.gpuLevel u + 1 else User.gpuLevel u) /\
  User.computePower (tapped now u)
  = (if User.xp u + User.computePower u >=? (User.gpuLevel u + 1) * 25000
     then User.computePower u + 1 else User.computePower u) /\
  User.boostCount (tapped now u)
  = (if Z.rem (User.xp u + User.computePower u) 2000 =? 0
     then User.boostCount u + 1 else User.boostCount u).
Proof.
  unfold tapped. cbv zeta. simpl_user.
  destruct (Z.rem (User.totalTaps u + 1) 500 =? 0); simpl_user;
    destruct (User.xp u + User.computePower u >=? (User.gpuLevel u + 1) * 25000);
    simpl_user;
    destruct (Z.rem (User.xp u + User.computePower u) 2000 =? 0);
    simpl_user; repeat split; reflexivity.
Qed.

(** What the store holds for the user after an accepted tap. *)
Lemma tap_accepted_store (env : Env) (tid : Z) (w : World) (u : User.t) :
  User.findOneByTelegramId tid (users w) = Some u ->
  UserController.coolingDown (now env) u = None ->
  users (after (UserController.tap env tid) w)
  = User.save (tapped (now env) u) (users w) /\
  User.findOneByTelegramId tid (users (after (UserController.tap env tid) w))
  = Some (tapped (now env) u) /\
  quests (after (UserController.tap env tid) w) = quests w /\
  referrals (after (UserController.tap env tid) w) = referrals w.
Proof.
  intros Hfind Hcool.
  destruct (tap_accepted env tid w Hfind Hcool) as (r & lb & ls & E & _).
  unfold after. rewrite E. cbn [snd users quests referrals].
  repeat split.
  apply findOneByTelegramId_save with (u := u); [assumption| |].
  - apply tapped_id.
  - rewrite (proj2 (tapped_id (now env) u)).
    eapply findOneByTelegramId_telegramId; eassumption.
Qed.

(** ** Runs of taps *)

Lemma crossing_step (t : Z) :
  0 <= t ->
  (t + 1) / 500 - t / 500 = if Z.rem (t + 1) 500 =? 0 then 1 else 0.
Proof.
  intros Ht. rewrite Z.rem_mod_nonneg by lia.
  pose proof (Z.div_mod t 500 ltac:(lia)) as E1.
  pose proof (Z.mod_pos_bound t 500 ltac:(lia)) as B1.
  pose proof (Z.div_mod (t + 1) 500 ltac:(lia)) as E2.
  pose proof (Z.mod_pos_bound (t + 1) 500 ltac:(lia)) as B2.
  destruct (Z.eqb_spec ((t + 1) mod 500) 0); lia.
Qed.

Lemma succeeded_accepted (r : Completion Response) :
  succeeded r -> cooldownRejection r = false.
Proof. intros [b ->]. reflexivity. Qed.

Lemma acceptedTaps_all_succeeded (rs : list (Completion Response)) :
  Forall succeeded rs -> acceptedTaps rs = List.length rs.
Proof.
  unfold acceptedTaps. induction 1 as [|r rs Hr _ IH]; [reflexivity|].
  cbn [filter]. rewrite (succeeded_accepted Hr). cbn. now rewrite IH.
Qed.

(** A run of taps by an existing user: the user stays in the store, each
    accepted tap adds one to [totalTaps], and (from a non-negative count)
    the cooldown is initiated once for each multiple of 500 the count
    reaches. *)
Lemma tapRun_spec (envs : list Env) :
  forall (tid : Z) (w : World) (u : User.t),
    User.findOneByTelegramId tid (users w) = Some u ->
    exists (u' : User.t) (ls : list LogEntry),
      User.findOneByTelegramId tid (users (snd (tapRun envs tid w))) = Some u' /\
      List.length (fst (tapRun envs tid w)) = List.length envs /\
      User.totalTaps u'
      = User.totalTaps u + Z.of_nat (acceptedTaps (fst (tapRun envs tid w))) /\
      logs (snd (tapRun envs tid w)) = logs w ++ ls /\
      (0 <= User.totalTaps u ->
       Z.of_nat (cooldownsInitiated ls)
       = User.totalTaps u' / 500 - User.totalTaps u / 500).
Proof.
  induction envs as [|env rest IH]; intros tid w u Hfind.
  - exists u, []. cbn. rewrite app_nil_r. repeat split; try assumption; lia.
  - cbn [tapRun].
    destruct (UserController.coolingDown (now env) u) as [t|] eqn:Hcool.
    + rewrite (tap_rejected env tid w Hfind Hcool).
      set (w1 := with_logs _ w).
      destruct (IH tid w1 u Hfind) as (u' & ls & F & L & T & Lg & Cd).
      destruct (tapRun rest tid w1) as [rs w2]. cbn [fst snd] in *.
      exists u', (InfoTapRejected (User.telegramId u) :: ls).
      repeat split.
      * assumption.
      * cbn. now rewrite L.
      * rewrite T. reflexivity.
      * rewrite Lg. subst w1. cbn. now rewrite <- app_assoc.
      * intros H0. specialize (Cd H0). exact Cd.
    + destruct (tap_accepted env tid w Hfind Hcool)
        as (r & lb & ls1 & E & C1 & Hok & Hfail).
      destruct (tap_accepted_store env tid w Hfind Hcool) as (_ & F1 & _).
      unfold after in F1. rewrite E in *. cbn [snd] in F1.
      set (w1 := mkWorld _ _ _ _ _) in *.
      destruct (IH tid w1 _ F1) as (u' & ls & F & L & T & Lg & Cd).
      destruct (tapRun rest tid w1) as [rs w2]. cbn [fst snd] in *.
      assert (Hr : cooldownRejection (Normal r) = false).
      { destruct (updateEntryFails_cases env) as [Hall|Hex].
        - rewrite (Hok Hall). reflexivity.
        - destruct (Hfail Hex) as (win & e & _ & -> & _). reflexivity. }
      destruct (tapped_fields (now env) u) as (Tt & _).
      exists u', (ls1 ++ ls). repeat split.
      * assumption.
      * cbn. now rewrite L.
      * rewrite T, Tt. unfold acceptedTaps. cbn [filter]. rewrite Hr.
        cbn [negb List.length]. fold (acceptedTaps rs). lia.
      * rewrite Lg. subst w1. cbn. now rewrite <- app_assoc.
      * intros H0. rewrite cooldownsInitiated_app, Nat2Z.inj_add, C1.
        rewrite Cd by lia. rewrite Tt.
        pose proof (crossing_step H0) as S.
        destruct (Z.rem (User.totalTaps u + 1) 500 =? 0);
          change (Z.of_nat 1) with 1; change (Z.of_nat 0) with 0; lia.
Qed.

Lemma coolingDown_None (now : Z) (u : User.t) :
  UserController.coolingDown now u = None <-> ~ cooldownActive now u.
Proof.
  unfold cooldownActive. split.
  - intros H [t Ht]. apply coolingDown_Some in Ht. congruence.
  - intros H. destruct (UserController.coolingDown now u) as [t|] eqn:E;
      [|reflexivity].
    exfalso. apply H. exists t. now apply coolingDown_Some.
Qed.

(** ** Properties of [tap] *)

(** C1. For an existing user whose cooldown is not active, [tap] adds
    exactly 1 to [totalTaps] and [computePower] (its value before the tap) to
    both [xp] and [compute]; over a run of tap requests [totalTaps] grows by
    the number of taps that passed the cooldown guard, hence by [N] after
    [N] successful taps. *)
Theorem tap_counts_and_credits (env : Env) (envs : list Env) (tid : Z)
    (w : World) (u : User.t) :
  User.findOneByTelegramId tid (users w) = Some u ->
  ~ cooldownActive (now env) u ->
  (exists u',
     User.findOneByTelegramId tid (users (after (UserController.tap env tid) w))
     = Some u' /\
     User.totalTaps u' = User.totalTaps u + 1 /\
     User.xp u' = User.xp u + User.computePower u /\
     User.compute u' = User.compute u + User.computePower u) /\
  (exists u',
     User.findOneByTelegramId tid (users (snd (tapRun envs tid w))) = Some u' /\
     User.totalTaps u'
     = User.totalTaps u + Z.of_nat (acceptedTaps (fst (tapRun envs tid w))) /\
     (Forall succeeded (fst (tapRun envs tid w)) ->
      User.totalTaps u' = User.totalTaps u + Z.of_nat (List.length envs))).
Proof.
  intros Hfind Hcool. apply coolingDown_None in Hcool. split.
  - destruct (tap_accepted_store env tid w Hfind Hcool) as (_ & F & _).
    destruct (tapped_fields (now env) u) as (T & X & C & _).
    exists (tapped (now env) u). auto.
  - destruct (tapRun_spec envs tid w Hfind) as (u' & ls & F & L & T & _).
    exists u'. repeat split; try assumption.
    intros Hall. rewrite T, (acceptedTaps_all_succeeded Hall), L. reflexivity.
Qed.

Lemma tap_counts_and_credits_witness :
  let u := player 1 11 0 1 499 0 None 0 None in
  let w := storeOf [u] in
  let envs := [quietEnv 1000; quietEnv 20000; quietEnv 20001] in
  (exists u',
     User.findOneByTelegramId 11
       (users (after (UserController.tap (quietEnv 1000) 11) w)) = Some u' /\
     User.totalTaps u' = 499 + 1 /\
     User.xp u' = 0 + 1 /\
     User.compute u' = 0 + 1) /\
  (exists u',
     User.findOneByTelegramId 11 (users (snd (tapRun envs 11 w))) = Some u' /\
     User.totalTaps u'
     = 499 + Z.of_nat (acceptedTaps (fst (tapRun envs 11 w))) /\
     (Forall succeeded (fst (tapRun envs 11 w)) ->
      User.totalTaps u' = 499 + Z.of_nat 3)).
Proof.
  intros u w envs.
  apply (@tap_counts_and_credits (quietEnv 1000) envs 11 w u).
  - reflexivity.
  - intros [t [H _]]. discriminate H.
Defined.

(** C2. When [cooldownEndTime] is set and the current time is strictly
    before it, [tap] answers 400 [Cooling down] with the stored
    [cooldownEndTime], and no collection of the store changes: the user's
    document is the one that was there. *)
Theorem tap_rejected_during_cooldown (env : Env) (tid : Z) (w : World)
    (u : User.t) (t : Z) :
  User.findOneByTelegramId tid (users w) = Some u ->
  User.cooldownEndTime u = Some t ->
  now env < t ->
  response (UserController.tap env tid) w
  = Normal (json 400 (CoolingDown "Cooling down" t)) /\
  users (after (UserController.tap env tid) w) = users w /\
  quests (after (UserController.tap env tid) w) = quests w /\
  referrals (after (UserController.tap env tid) w) = referrals w /\
  leaderboard (after (UserController.tap env tid) w) = leaderboard w /\
  User.findOneByTelegramId tid (users (after (UserController.tap env tid) w))
  = Some u.
Proof.
  intros Hfind Hend Hlt.
  assert (Hcool : UserController.coolingDown (now env) u = Some t)
    by (apply coolingDown_Some; auto).
  unfold response, after. rewrite (tap_rejected env tid w Hfind Hcool).
  cbn [fst snd with_logs users quests referrals leaderboard].
  repeat split; assumption.
Qed.

Lemma tap_rejected_during_cooldown_witness :
  let u := player 1 11 500 1 500 0 (Some 11000) 0 None in
  let w := storeOf [u] in
  response (UserController.tap (quietEnv 5000) 11) w
  = Normal (json 400 (CoolingDown "Cooling down" 11000)) /\
  users (after (UserController.tap (quietEnv 5000) 11) w) = users w /\
  quests (after (UserController.tap (quietEnv 5000) 11) w) = quests w /\
  referrals (after (UserController.tap (quietEnv 5000) 11) w) = referrals w /\
  leaderboard (after (UserController.tap (quietEnv 5000) 11) w) = leaderboard w /\
  User.findOneByTelegramId 11
    (users (after (UserController.tap (quietEnv 5000) 11) w)) = Some u.
Proof.
  intros u w.
  apply (@tap_rejected_during_cooldown (quietEnv 5000) 11 w u 11000).
  - reflexivity.
  - reflexivity.
  - reflexivity.
Defined.

(** C3. A tap that passes the cooldown guard and brings [totalTaps] to a
    multiple of 500 sets [cooldownEndTime] to the tap time plus 10 seconds,
    once (one [Cooldown initiated] line); a tap whose resulting [totalTaps]
    is no multiple of 500 leaves [cooldownEndTime] as it was.  Over a run
    of taps from a non-negative count the cooldown is initiated exactly once
    for each multiple of 500 that [totalTaps] reaches. *)
Theorem tap_cooldown_trigger (env : Env) (envs : list Env) (tid : Z)
    (w : World) (u : User.t) :
  User.findOneByTelegramId tid (users w) = Some u ->
  ~ cooldownActive (now env) u ->
  (exists u' ls,
     User.findOneByTelegramId tid (users (after (UserController.tap env tid) w))
     = Some u' /\
     logs (after (UserController.tap env tid) w) = logs w ++ ls /\
     User.totalTaps u' = User.totalTaps u + 1 /\
     (Z.rem (User.totalTaps u') 500 = 0 ->
      User.cooldownEndTime u' = Some (now env + 10 * 1000) /\
      cooldownsInitiated ls = 1%nat) /\
     (Z.rem (User.totalTaps u') 500 <> 0 ->
      User.cooldownEndTime u' = User.cooldownEndTime u /\
      cooldownsInitiated ls = 0%nat)) /\
  (0 <= User.totalTaps u ->
   exists u' ls,
     User.findOneByTelegramId tid (users (snd (tapRun envs tid w))) = Some u' /\
     logs (snd (tapRun envs tid w)) = logs w ++ ls /\
     Z.of_nat (cooldownsInitiated ls)
     = User.totalTaps u' / 500 - User.totalTaps u / 500).
Proof.
  intros Hfind Hcool. apply coolingDown_None in Hcool. split.
  - destruct (tap_accepted env tid w Hfind Hcool) as (r & lb & ls & E & C & _).
    destruct (tap_accepted_store env tid w Hfind Hcool) as (_ & F & _).
    destruct (tapped_fields (now env) u) as (T & _ & _ & Cd & _).
    exists (tapped (now env) u), ls.
    split; [assumption|]. split; [unfold after; rewrite E; reflexivity|].
    split; [assumption|]. rewrite T, Cd, C.
    destruct (Z.eqb_spec (Z.rem (User.totalTaps u + 1) 500) 0) as [e|n];
      split; intros H; try (split; reflexivity); contradiction.
  - intros H0.
    destruct (tapRun_spec envs tid w Hfind) as (u' & ls & F & _ & _ & L & Cd).
    exists u', ls. auto.
Qed.

Lemma tap_cooldown_trigger_witness :
  let u := player 1 11 0 1 499 0 None 0 None in
  let w := storeOf [u] in
  let env := quietEnv 1000 in
  let envs := [quietEnv 1000; quietEnv 5000; quietEnv 20000] in
  (exists u' ls,
     User.findOneByTelegramId 11 (users (after (UserController.tap env 11) w))
     = Some u' /\
     logs (after (UserController.tap env 11) w) = logs w ++ ls /\
     User.totalTaps u' = 499 + 1 /\
     (Z.rem (User.totalTaps u') 500 = 0 ->
      User.cooldownEndTime u' = Some (1000 + 10 * 1000) /\
      cooldownsInitiated ls = 1%nat) /\
     (Z.rem (User.totalTaps u') 500 <> 0 ->
      User.cooldownEndTime u' = None /\
      cooldownsInitiated ls = 0%nat)) /\
  (0 <= 499 ->
   exists u' ls,
     User.findOneByTelegramId 11 (users (snd (tapRun envs 11 w))) = Some u' /\
     logs (snd (tapRun envs 11 w)) = logs w ++ ls /\
     Z.of_nat (cooldownsInitiated ls) = User.totalTaps u' / 500 - 499 / 500).
Proof.
  intros u w env envs.
  apply (@tap_cooldown_trigger env envs 11 w u).
  - reflexivity.
  - intros [t [H _]]. discriminate H.
Defined.

(** C4. On a tap that passes the cooldown guard, if the [xp] after the
    increment is at least [(gpuLevel + 1) * 25000] then [gpuLevel] and
    [computePower] both grow by exactly 1, also when [xp] already reaches
    the threshold of the level after (the test is made once); otherwise both
    stay.  A user with [xp = 24999], [computePower = 1], [gpuLevel = 0] ends
    with [xp = 25000], [gpuLevel = 1], [computePower = 2]. *)
Theorem tap_gpu_upgrade (env : Env) (tid : Z) (w : World) (u : User.t) :
  User.findOneByTelegramId tid (users w) = Some u ->
  ~ cooldownActive (now env) u ->
  exists u',
    User.findOneByTelegramId tid (users (after (UserController.tap env tid) w))
    = Some u' /\
    User.xp u' = User.xp u + User.computePower u /\
    ((User.gpuLevel u + 1) * 25000 <= User.xp u' ->
     User.gpuLevel u' = User.gpuLevel u + 1 /\
     User.computePower u' = User.computePower u + 1) /\
    ((User.gpuLevel u + 2) * 25000 <= User.xp u' ->
     User.gpuLevel u' = User.gpuLevel u + 1 /\
     User.computePower u' = User.computePower u + 1) /\
    (User.xp u' < (User.gpuLevel u + 1) * 25000 ->
     User.gpuLevel u' = User.gpuLevel u /\
     User.computePower u' = User.computePower u) /\
    (User.xp u = 24999 -> User.computePower u = 1 -> User.gpuLevel u = 0 ->
     User.xp u' = 25000 /\ User.gpuLevel u' = 1 /\ User.computePower u' = 2).
Proof.
  intros Hfind Hcool. apply coolingDown_None in Hcool.
  destruct (tap_accepted_store env tid w Hfind Hcool) as (_ & F & _).
  destruct (tapped_fields (now env) u) as (_ & X & _ & _ & G & P & _).
  exists (tapped (now env) u).
  split; [assumption|]. split; [assumption|]. rewrite X, G, P.
  destruct (Z.geb_spec (User.xp u + User.computePower u)
              ((User.gpuLevel u + 1) * 25000)) as [Hge|Hlt].
  - repeat split; intros; lia.
  - repeat split; intros; lia.
Qed.

Lemma tap_gpu_upgrade_witness :
  let u := player 1 11 24999 1 10 0 None 0 None in
  let w := storeOf [u] in
  exists u',
    User.findOneByTelegramId 11
      (users (after (UserController.tap (quietEnv 1000) 11) w)) = Some u' /\
    User.xp u' = 24999 + 1 /\
    ((0 + 1) * 25000 <= User.xp u' ->
     User.gpuLevel u' = 0 + 1 /\ User.computePower u' = 1 + 1) /\
    ((0 + 2) * 25000 <= User.xp u' ->
     User.gpuLevel u' = 0 + 1 /\ User.computePower u' = 1 + 1) /\
    (User.xp u' < (0 + 1) * 25000 ->
     User.gpuLevel u' = 0 /\ User.computePower u' = 1) /\
    (24999 = 24999 -> 1 = 1 -> 0 = 0 ->
     User.xp u' = 25000 /\ User.gpuLevel u' = 1 /\ User.computePower u' = 2).
Proof.
  intros u w.
  apply (@tap_gpu_upgrade (quietEnv 1000) 11 w u).
  - reflexivity.
  - intros [t [H _]]. discriminate H.
Defined.

(** C5. On a tap that passes the cooldown guard, [boostCount] grows by
    exactly 1 when the [xp] after the tap is an exact multiple of 2000 and
    stays otherwise; a tap that carries [xp] across [2000 * k] and lands
    strictly between two multiples gives no boost. *)
Theorem tap_boost_reward (env : Env) (tid : Z) (w : World) (u : User.t) :
  User.findOneByTelegramId tid (users w) = Some u ->
  ~ cooldownActive (now env) u ->
  exists u',
    User.findOneByTelegramId tid (users (after (UserController.tap env tid) w))
    = Some u' /\
    User.xp u' = User.xp u + User.computePower u /\
    (Z.rem (User.xp u') 2000 = 0 -> User.boostCount u' = User.boostCount u + 1) /\
    (Z.rem (User.xp u') 2000 <> 0 -> User.boostCount u' = User.boostCount u) /\
    (forall k, User.xp u < 2000 * k -> 2000 * k < User.xp u' ->
               User.xp u' < 2000 * (k + 1) ->
               User.boostCount u' = User.boostCount u).
Proof.
  intros Hfind Hcool. apply coolingDown_None in Hcool.
  destruct (tap_accepted_store env tid w Hfind Hcool) as (_ & F & _).
  destruct (tapped_fields (now env) u) as (_ & X & _ & _ & _ & _ & B).
  exists (tapped (now env) u).
  split; [assumption|]. split; [assumption|]. rewrite X, B.
  destruct (Z.eqb_spec (Z.rem (User.xp u + User.computePower u) 2000) 0)
    as [e|n].
  - split; [reflexivity|]. split; [contradiction|].
    intros k _ Hlo Hhi. exfalso.
    pose proof (Z.quot_rem' (User.xp u + User.computePower u) 2000) as Q.
    rewrite e in Q. lia.
  - split; [contradiction|]. split; reflexivity.
Qed.

Lemma tap_boost_reward_witness :
  let u := player 1 11 1999 2 10 0 None 0 None in
  let w := storeOf [u] in
  exists u',
    User.findOneByTelegramId 11
      (users (after (UserController.tap (quietEnv 1000) 11) w)) = Some u' /\
    User.xp u' = 1999 + 2 /\
    (Z.rem (User.xp u') 2000 = 0 -> User.boostCount u' = 0 + 1) /\
    (Z.rem (User.xp u') 2000 <> 0 -> User.boostCount u' = 0) /\
    (forall k, 1999 < 2000 * k -> 2000 * k < User.xp u' ->
               User.xp u' < 2000 * (k + 1) ->
               User.boostCount u' = 0).
Proof.
  intros u w.
  apply (@tap_boost_reward (quietEnv 1000) 11 w u).
  - reflexivity.
  - intros [t [H _]]. discriminate H.
Defined.

(** ** Properties of [boost] *)

(** With a boost in stock, [boost] saves [boosted] and answers 200; no
    other collection and no log changes. *)
Lemma boost_run (env : Env) (tid : Z) (w : World) (u : User.t) :
  User.findOneByTelegramId tid (users w) = Some u ->
  1 <= User.boostCount u ->
  UserController.boost env tid w
  = (Normal (json 200
               (BoostActivated "Boost activated"
                  (mkBoostSnapshot
                     (User.xp (boosted (now env) u))
                     (User.compute (boosted (now env) u))
                     (User.totalTaps (boosted (now env) u))
                     (User.boostCount (boosted (now env) u))
                     (User.lastBoostTime (boosted (now env) u))))),
     with_users (User.save (boosted (now env) u) (users w)) w).
Proof.
  intros Hfind Hcount.
  unfold UserController.boost, try_catch.
  rewrite bind_run. unfold User_findOne_telegramId at 1.
  rewrite Hfind. cbv beta iota zeta.
  destruct (Z.ltb_spec (User.boostCount u) 1) as [Hlt|_]; [lia|].
  change (10 * (10 * 1000 / 1000)) with 100.
  unfold boosted. cbv zeta. simpl_user. reflexivity.
Qed.

(** C6. With [boostCount >= 1], [boost] takes one boost, adds 100 to
    [totalTaps] and [100 * computePower] to [xp] and to [compute], sets
    [cooldownEndTime] to null whatever it was, records [lastBoostTime], and
    leaves [gpuLevel] and [computePower] alone: neither the GPU upgrade nor
    the boost reward of [tap] is applied. *)
Theorem boost_effect (env : Env) (tid : Z) (w : World) (u : User.t) :
  User.findOneByTelegramId tid (users w) = Some u ->
  1 <= User.boostCount u ->
  exists u',
    User.findOneByTelegramId tid
      (users (after (UserController.boost env tid) w)) = Some u' /\
    User.boostCount u' = User.boostCount u - 1 /\
    User.totalTaps u' = User.totalTaps u + 100 /\
    User.xp u' = User.xp u + 100 * User.computePower u /\
    User.compute u' = User.compute u + 100 * User.computePower u /\
    User.cooldownEndTime u' = None /\
    User.lastBoostTime u' = Some (now env) /\
    User.gpuLevel u' = User.gpuLevel u /\
    User.computePower u' = User.computePower u /\
    response (UserController.boost env tid) w
    = Normal (json 200
                (BoostActivated "Boost activated"
                   (mkBoostSnapshot (User.xp u') (User.compute u')
                      (User.totalTaps u') (User.boostCount u')
                      (User.lastBoostTime u')))).
Proof.
  intros Hfind Hcount.
  exists (boosted (now env) u).
  unfold after, response. rewrite (boost_run env tid w Hfind Hcount).
  cbn [fst snd with_users users].
  split.
  - apply findOneByTelegramId_save with (u := u); [assumption| |].
    + apply boosted_id.
    + rewrite (proj2 (boosted_id (now env) u)).
      eapply findOneByTelegramId_telegramId; eassumption.
  - unfold boosted. cbv zeta. simpl_user. repeat split; reflexivity.
Qed.

Lemma boost_effect_witness :
  let u := player 1 11 25900 1 450 0 (Some 99999) 2 None in
  let w := storeOf [u] in
  let env := quietEnv 5000 in
  exists u',
    User.findOneByTelegramId 11
      (users (after (UserController.boost env 11) w)) = Some u' /\
    User.boostCount u' = 2 - 1 /\
    User.totalTaps u' = 450 + 100 /\
    User.xp u' = 25900 + 100 * 1 /\
    User.compute u' = 0 + 100 * 1 /\
    User.cooldownEndTime u' = None /\
    User.lastBoostTime u' = Some 5000 /\
    User.gpuLevel u' = 0 /\
    User.computePower u' = 1 /\
    response (UserController.boost env 11) w
    = Normal (json 200
                (BoostActivated "Boost activated"
                   (mkBoostSnapshot (User.xp u') (User.compute u')
                      (User.totalTaps u') (User.boostCount u')
                      (User.lastBoostTime u')))).
Proof.
  intros u w env.
  apply (@boost_effect env 11 w u).
  - reflexivity.
  - cbn. lia.
Defined.

(** ** Referral propagation, continued *)

(** The bound on the rounds never cuts the loop short: from tier 1 the
    guard [currentTier <= 3] stops it after three rounds at the latest. *)
Lemma referralLoop_tiers_enough (scope : list string) (xpGained : Z)
    (user : User.t) (tiers : nat) :
  forall (currentReferrer : option User.t) (currentTier : Z) (w : World),
    4 - currentTier <= Z.of_nat tiers ->
    UserController.referralLoop scope (S tiers) xpGained user currentReferrer
      currentTier w
    = UserController.referralLoop scope tiers xpGained user currentReferrer
        currentTier w.
Proof.
  induction tiers as [|n IH]; intros cur tier w Hle.
  - cbn [UserController.referralLoop]. destruct cur as [r|]; [|reflexivity].
    destruct (Z.leb_spec tier 3); [lia|reflexivity].
  - change (UserController.referralLoop scope (S (S n)) xpGained user cur tier w)
      with (match cur with
            | None => ret tt
            | Some referrer =>
                if tier <=? 3 then
                  let referralXP :=
                    Qfloor (inject_Z xpGained *
                            nth (Z.to_nat (tier - 1))
                              UserController.tierPercentages 0%Q)%Q in
                  let referrer :=
                    User.set_xp (User.xp referrer + referralXP) referrer in
                  bind (UserController.identifier scope "Referral") (fun _ =>
                  bind (Referral_findOneAndUpdate_inc (User._id referrer)
                          (User._id user) referralXP) (fun _ =>
                  bind (User_save referrer) (fun _ =>
                  bind (logger (InfoDistributed referralXP (User._id referrer)
                                  tier)) (fun _ =>
                  bind (User_findById (User.referredBy referrer)) (fun next =>
                  UserController.referralLoop scope (S n) xpGained user next
                    (tier + 1))))))
                else ret tt
            end w).
    cbn [UserController.referralLoop].
    destruct cur as [r|]; [|reflexivity].
    destruct (tier <=? 3); [|reflexivity].
    cbv zeta. unfold bind at 1. symmetry. unfold bind at 1. symmetry.
    destruct (UserController.identifier scope "Referral" w) as [[[]|e] w1];
      [|reflexivity].
    unfold bind, Referral_findOneAndUpdate_inc, User_save, logger, User_findById.
    apply IH. lia.
Qed.

(** C7. On a chain of three referrers and more, with [xpGained = 1000],
    [distributeReferralXP] leaves every stored [xp] and the referral edge
    as they were: the loop throws at the unbound name [Referral] in its first
    round, before the first [save], and the [catch] logs the error. *)
Theorem distributeReferralXP_credits_nobody :
  let w := after (UserController.distributeReferralXP 1 1000) referralChain in
  users w = users referralChain /\
  referrals w = referrals referralChain /\
  xpOf 2 w = Some 0 /\ xpOf 3 w = Some 0 /\ xpOf 4 w = Some 0 /\
  xpOf 5 w = Some 0 /\
  logs w = [ErrorDistributing "Referral is not defined"].
Proof. vm_compute. repeat split; reflexivity. Qed.

(** What the same code does once [Referral] is bound in the module: the
    three referrers gain 100, 50 and 25, the fourth one nothing, and the
    edge of the direct referral records 100. *)
Lemma distributeReferralXP_with_Referral_bound :
  let w := after (UserController.distributeReferralXP_in
                    ("Referral" :: UserController.moduleScope) 1 1000)
             referralChain in
  xpOf 2 w = Some 100 /\ xpOf 3 w = Some 50 /\ xpOf 4 w = Some 25 /\
  xpOf 5 w = Some 0 /\
  referrals w = [Referral.mk 2 1 100].
Proof. vm_compute. repeat split; reflexivity. Qed.

(** ** Containment of the fan-out *)




(** The referral propagation of that tap did fail, and the tap answered
    200 all the same. *)
Lemma tap_contains_referral_failure :
  let r := UserController.tap (quietEnv 1000) 11 referralChain in
  succeeded (fst r) /\
  In (ErrorDistributing "Referral is not defined") (logs (snd r)).
Proof.
  split.
  - eexists. vm_compute. reflexivity.
  - vm_compute. auto.
Qed.

(** ** The claim handler *)

Lemma includes_In (questId : string) (l : list string) :
  existsb (String.eqb questId) l = true <-> In questId l.
Proof.
  rewrite existsb_exists. split.
  - intros [x [Hin Heq]]. apply String.eqb_eq in Heq. now subst.
  - intros Hin. exists questId. split; [assumption|apply String.eqb_refl].
Qed.

(** [verifyQuestCompletion] reads the store only. *)
Lemma verifyQuestCompletion_store (env : Env) (user : option User.t)
    (quest : option Quest.t) (w : World) :
  snd (QuestRoutes.verifyQuestCompletion env user quest w) = w.
Proof.
  unfold QuestRoutes.verifyQuestCompletion.
  destruct user as [u|], quest as [q|]; try reflexivity.
  cbv zeta. repeat break_if; reflexivity.
Qed.

Lemma claim_already (env : Env) (tid : Z) (qid : string) (w : World)
    (u : User.t) (q : Quest.t) :
  User.findOneByTelegramId tid (users w) = Some u ->
  Quest.findById qid (quests w) = Some q ->
  In qid (User.completedQuests u) ->
  QuestRoutes.claimQuest env tid qid w
  = (Normal (json 400 (Message "Quest already claimed")), w).
Proof.
  intros Hfind Hquest Hin. apply includes_In in Hin.
  unfold QuestRoutes.claimQuest, try_catch.
  rewrite bind_run. unfold User_findOne_telegramId at 1. rewrite Hfind.
  cbv beta iota. rewrite bind_run. unfold Quest_findById at 1. rewrite Hquest.
  cbv beta iota. rewrite Hin. reflexivity.
Qed.

Lemma claim_quest_missing (env : Env) (tid : Z) (qid : string) (w : World)
    (u : User.t) :
  User.findOneByTelegramId tid (users w) = Some u ->
  Quest.findById qid (quests w) = None ->
  QuestRoutes.claimQuest env tid qid w
  = (Normal (json 404 (Message "Quest not found")), w).
Proof.
  intros Hfind Hquest.
  unfold QuestRoutes.claimQuest, try_catch.
  rewrite bind_run. unfold User_findOne_telegramId at 1. rewrite Hfind.
  cbv beta iota. rewrite bind_run. unfold Quest_findById at 1. rewrite Hquest.
  reflexivity.
Qed.

(** A claim of a quest not yet claimed, by cases on the verifier. *)
Lemma claim_fresh (env : Env) (tid : Z) (qid : string) (w : World)
    (u : User.t) (q : Quest.t) :
  User.findOneByTelegramId tid (users w) = Some u ->
  Quest.findById qid (quests w) = Some q ->
  ~ In qid (User.completedQuests u) ->
  QuestRoutes.claimQuest env tid qid w
  = match response (QuestRoutes.verifyQuestCompletion env (Some u) (Some q)) w with
    | Throw e =>
        (Normal (json 500 (MessageError "Error claiming quest" e)),
         with_logs (logs w ++ [ErrorClaimingQuest e]) w)
    | Normal verified =>
        if negb verified && String.eqb (Quest.type q) "telegram" then
          (Normal (json 400
                     (NotJoined "User has not joined telegram channel" false)),
           w)
        else
          (Normal (json 200
                     (QuestClaimed "Quest claimed successfully"
                        (User.xp u + Quest.xpReward q))),
           with_logs (logs w ++ [InfoQuestClaimed (User.telegramId u) qid])
             (with_users (User.save (claimed qid q u) (users w)) w))
    end.
Proof.
  intros Hfind Hquest Hin.
  assert (Hinc : existsb (String.eqb qid) (User.completedQuests u) = false).
  { destruct (existsb _ _) eqn:E; [|reflexivity].
    apply includes_In in E. contradiction. }
  unfold QuestRoutes.claimQuest, try_catch.
  rewrite bind_run. unfold User_findOne_telegramId at 1. rewrite Hfind.
  cbv beta iota. rewrite bind_run. unfold Quest_findById at 1. rewrite Hquest.
  cbv beta iota. rewrite Hinc. rewrite bind_run.
  pose proof (verifyQuestCompletion_store env (Some u) (Some q) w) as Hw.
  unfold response.
  destruct (QuestRoutes.verifyQuestCompletion env (Some u) (Some q) w)
    as [[b|e] w']; cbn [fst snd] in *; subst w'.
  - destruct (negb b && String.eqb (Quest.type q) "telegram"); [reflexivity|].
    cbv zeta. reflexivity.
  - reflexivity.
Qed.

Lemma claimed_id (qid : string) (q : Quest.t) (u : User.t) :
  User._id (claimed qid q u) = User._id u /\
  User.telegramId (claimed qid q u) = User.telegramId u.
Proof. split; reflexivity. Qed.

(** A claim that went through the credit branch: the answer and the saved
    document. *)
Lemma claim_credit (env : Env) (tid : Z) (qid : string) (w : World)
    (u : User.t) (q : Quest.t) (verified : bool) :
  User.findOneByTelegramId tid (users w) = Some u ->
  Quest.findById qid (quests w) = Some q ->
  ~ In qid (User.completedQuests u) ->
  response (QuestRoutes.verifyQuestCompletion env (Some u) (Some q)) w
  = Normal verified ->
  negb verified && String.eqb (Quest.type q) "telegram" = false ->
  credited env tid qid w u q /\
  quests (after (QuestRoutes.claimQuest env tid qid) w) = quests w /\
  User.findOneByTelegramId tid
    (users (after (QuestRoutes.claimQuest env tid qid) w))
  = Some (claimed qid q u).
Proof.
  intros Hfind Hquest Hin Hver Hguard.
  pose proof (claim_fresh env tid qid w Hfind Hquest Hin) as E.
  rewrite Hver, Hguard in E.
  assert (F : User.findOneByTelegramId tid
                (User.save (claimed qid q u) (users w))
              = Some (claimed qid q u)).
  { apply findOneByTelegramId_save with (u := u); [assumption|reflexivity|].
    change (User.telegramId u = tid).
    eapply findOneByTelegramId_telegramId; eassumption. }
  unfold credited, response, after. rewrite E.
  cbn [fst snd with_logs with_users users quests].
  split; [split; [reflexivity|]|split; [reflexivity|assumption]].
  exists (claimed qid q u). repeat split; [assumption].
Qed.








(** ** Further properties of [tap] and [boost] *)

Lemma boost_rejected (env : Env) (tid : Z) (w : World) (u : User.t) :
  User.findOneByTelegramId tid (users w) = Some u ->
  User.boostCount u < 1 ->
  UserController.boost env tid w
  = (Normal (json 400 (Message "No boost available")), w).
Proof.
  intros Hfind Hcount.
  unfold UserController.boost, try_catch.
  rewrite bind_run. unfold User_findOne_telegramId at 1.
  rewrite Hfind. cbv beta iota.
  destruct (Z.ltb_spec (User.boostCount u) 1) as [_|Hge]; [reflexivity|lia].
Qed.

(** X1. With no boost in stock, [boost] answers 400 [No boost available]
    and leaves the whole store, log included, as it was. *)
Theorem boost_without_stock (env : Env) (tid : Z) (w : World) (u : User.t) :
  User.findOneByTelegramId tid (users w) = Some u ->
  User.boostCount u < 1 ->
  response (UserController.boost env tid) w
  = Normal (json 400 (Message "No boost available")) /\
  after (UserController.boost env tid) w = w.
Proof.
  intros Hfind Hcount. unfold response, after.
  rewrite (boost_rejected env tid w Hfind Hcount). split; reflexivity.
Qed.

Lemma boost_without_stock_witness :
  let u := player 1 11 700 1 450 0 (Some 99999) 0 None in
  let w := storeOf [u] in
  response (UserController.boost (quietEnv 5000) 11) w
  = Normal (json 400 (Message "No boost available")) /\
  after (UserController.boost (quietEnv 5000) 11) w = w.
Proof.
  intros u w.
  apply (@boost_without_stock (quietEnv 5000) 11 w u).
  - reflexivity.
  - cbn. lia.
Defined.

Lemma tap_unknown_user (env : Env) (tid : Z) (w : World) :
  User.findOneByTelegramId tid (users w) = None ->
  UserController.tap env tid w
  = (Normal (json 404 (Message "User not found")), w).
Proof.
  intros Hfind. unfold UserController.tap, try_catch. rewrite bind_run.
  unfold User_findOne_telegramId at 1. rewrite Hfind. reflexivity.
Qed.

Lemma claim_unknown_user (env : Env) (tid : Z) (qid : string) (w : World) :
  User.findOneByTelegramId tid (users w) = None ->
  QuestRoutes.claimQuest env tid qid w
  = (Normal (json 404 (Message "User not found")), w).
Proof.
  intros Hfind. unfold QuestRoutes.claimQuest, try_catch. rewrite bind_run.
  unfold User_findOne_telegramId at 1. rewrite Hfind. reflexivity.
Qed.

(** X2. A request whose [telegramId] matches no stored user is answered
    404 [User not found] by [tap], by [boost] and by the claim handler, and
    none of them writes anything. *)
Theorem unknown_user_not_found (env : Env) (tid : Z) (qid : string) (w : World) :
  User.findOneByTelegramId tid (users w) = None ->
  UserController.tap env tid w
  = (Normal (json 404 (Message "User not found")), w) /\
  UserController.boost env tid w
  = (Normal (json 404 (Message "User not found")), w) /\
  QuestRoutes.claimQuest env tid qid w
  = (Normal (json 404 (Message "User not found")), w).
Proof.
  intros Hfind. repeat split.
  - unfold UserController.tap, try_catch. rewrite bind_run.
    unfold User_findOne_telegramId at 1. rewrite Hfind. reflexivity.
  - unfold UserController.boost, try_catch. rewrite bind_run.
    unfold User_findOne_telegramId at 1. rewrite Hfind. reflexivity.
  - unfold QuestRoutes.claimQuest, try_catch. rewrite bind_run.
    unfold User_findOne_telegramId at 1. rewrite Hfind. reflexivity.
Qed.

Lemma unknown_user_not_found_witness :
  let w := storeOf [player 1 11 0 1 0 0 None 3 None] in
  UserController.tap (quietEnv 1000) 12 w
  = (Normal (json 404 (Message "User not found")), w) /\
  UserController.boost (quietEnv 1000) 12 w
  = (Normal (json 404 (Message "User not found")), w) /\
  QuestRoutes.claimQuest (quietEnv 1000) 12 "64b7f0c2a1d3e4f5a6b7c8d1" w
  = (Normal (json 404 (Message "User not found")), w).
Proof.
  intros w.
  apply (@unknown_user_not_found (quietEnv 1000) 12 "64b7f0c2a1d3e4f5a6b7c8d1" w).
  reflexivity.
Defined.

(** What one request does to the document of the user who sends it. *)
Lemma serveOne_user (request : Request) (tid : Z) (w : World) (u : User.t) :
  User.findOneByTelegramId tid (users w) = Some u ->
  exists u',
    User.findOneByTelegramId tid (users (serveOne request tid w)) = Some u' /\
    (users (serveOne request tid w) = users w /\ u' = u \/
     users (serveOne request tid w) = User.save u' (users w) /\
     ((exists env, request = TapRequest env /\ u' = tapped (now env) u) \/
      (exists env, request = BoostRequest env /\ 1 <= User.boostCount u /\
                   u' = boosted (now env) u))) /\
    quests (serveOne request tid w) = quests w /\
    referrals (serveOne request tid w) = referrals w.
Proof.
  intros Hfind. destruct request as [env|env]; cbn [serveOne].
  - destruct (UserController.coolingDown (now env) u) as [t|] eqn:Hcool.
    + exists u. unfold after. rewrite (tap_rejected env tid w Hfind Hcool).
      cbn [snd with_logs users quests referrals]. auto.
    + destruct (tap_accepted_store env tid w Hfind Hcool) as (U & F & Q & R).
      exists (tapped (now env) u).
      split; [assumption|]. split; [|split; assumption].
      right. split; [assumption|]. left. exists env. auto.
  - destruct (Z.ltb_spec (User.boostCount u) 1) as [Hlt|Hge].
    + exists u. unfold after. rewrite (boost_rejected env tid w Hfind Hlt).
      cbn [snd]. auto.
    + exists (boosted (now env) u). unfold after.
      rewrite (boost_run env tid w Hfind Hge).
      cbn [snd with_users users quests referrals].
      split.
      * apply findOneByTelegramId_save with (u := u); [assumption| |].
        -- apply boosted_id.
        -- rewrite (proj2 (boosted_id (now env) u)).
           eapply findOneByTelegramId_telegramId; eassumption.
      * split; [|split; reflexivity].
        right. split; [reflexivity|]. right. exists env. auto.
Qed.

Lemma boosted_fields (now : Z) (u : User.t) :
  User.boostCount (boosted now u) = User.boostCount u - 1 /\
  User.totalTaps (boosted now u) = User.totalTaps u + 100 /\
  User.xp (boosted now u) = User.xp u + 100 * User.computePower u /\
  User.compute (boosted now u) = User.compute u + 100 * User.computePower u /\
  User.gpuLevel (boosted now u) = User.gpuLevel u /\
  User.computePower (boosted now u) = User.computePower u /\
  User.cooldownEndTime (boosted now u) = None.
Proof. unfold boosted. cbv zeta. simpl_user. repeat split; reflexivity. Qed.

(** X3. Whatever taps and boosts a user sends, in any order and with any
    outcome, the user stays in the store, [xp], [totalTaps] and [gpuLevel]
    never decrease, and [boostCount] and [computePower] never become
    negative, as long as [computePower] and [boostCount] start
    non-negative. *)
Theorem progression_monotone (requests : list Request) (tid : Z) :
  forall (w : World) (u : User.t),
    User.findOneByTelegramId tid (users w) = Some u ->
    0 <= User.computePower u ->
    0 <= User.boostCount u ->
    exists u',
      User.findOneByTelegramId tid (users (serve requests tid w)) = Some u' /\
      User._id u' = User._id u /\
      User.xp u <= User.xp u' /\
      User.compute u <= User.compute u' /\
      User.totalTaps u <= User.totalTaps u' /\
      User.gpuLevel u <= User.gpuLevel u' /\
      User.computePower u <= User.computePower u' /\
      0 <= User.boostCount u'.
Proof.
  induction requests as [|request rest IH]; intros w u Hfind Hcp Hbc.
  - exists u. cbn [serve]. repeat split; try assumption; lia.
  - cbn [serve].
    destruct (serveOne_user request tid w Hfind) as (u1 & F1 & Hcase & _).
    assert (H1 : User._id u1 = User._id u /\
                 User.xp u <= User.xp u1 /\
                 User.compute u <= User.compute u1 /\
                 User.totalTaps u <= User.totalTaps u1 /\
                 User.gpuLevel u <= User.gpuLevel u1 /\
                 User.computePower u <= User.computePower u1 /\
                 0 <= User.boostCount u1).
    { destruct Hcase as [[_ ->]|[_ [(env & _ & ->)|(env & _ & Hge & ->)]]].
      - repeat split; try assumption; lia.
      - destruct (tapped_fields (now env) u) as (T & X & C & _ & G & P & B).
        rewrite (proj1 (tapped_id (now env) u)), T, X, C, G, P, B.
        repeat break_if; repeat split; lia.
      - destruct (boosted_fields (now env) u) as (B & T & X & C & G & P & _).
        rewrite (proj1 (boosted_id (now env) u)), T, X, C, G, P, B.
        repeat split; lia. }
    destruct H1 as (I1 & X1 & C1 & T1 & G1 & P1 & B1).
    destruct (IH _ u1 F1 ltac:(lia) B1) as (u' & F & I & X & C & T & G & P & B).
    exists u'. repeat split; try assumption; lia.
Qed.

Lemma progression_monotone_witness :
  let u := player 1 11 24999 1 499 0 None 1 None in
  let requests := [TapRequest (quietEnv 1000); TapRequest (quietEnv 2000);
                   BoostRequest (quietEnv 3000); BoostRequest (quietEnv 3500);
                   TapRequest (quietEnv 4000)] in
  exists u',
    User.findOneByTelegramId 11 (users (serve requests 11 (storeOf [u])))
    = Some u' /\
    User._id u' = 1 /\
    24999 <= User.xp u' /\
    0 <= User.compute u' /\
    499 <= User.totalTaps u' /\
    0 <= User.gpuLevel u' /\
    1 <= User.computePower u' /\
    0 <= User.boostCount u'.
Proof.
  intros u requests.
  apply (@progression_monotone requests 11 (storeOf [u]) u).
  - reflexivity.
  - cbn. lia.
  - cbn. lia.
Defined.

(** X4. Taps and boosts keep two quantities of the user constant:
    [computePower - gpuLevel] (the two always move together) and
    [compute - xp] (every gain of [xp] is mirrored in [compute]). *)
Theorem progression_conserved (requests : list Request) (tid : Z) :
  forall (w : World) (u : User.t),
    User.findOneByTelegramId tid (users w) = Some u ->
    exists u',
      User.findOneByTelegramId tid (users (serve requests tid w)) = Some u' /\
      User.computePower u' - User.gpuLevel u'
      = User.computePower u - User.gpuLevel u /\
      User.compute u' - User.xp u' = User.compute u - User.xp u.
Proof.
  induction requests as [|request rest IH]; intros w u Hfind.
  - exists u. cbn [serve]. auto.
  - cbn [serve].
    destruct (serveOne_user request tid w Hfind) as (u1 & F1 & Hcase & _).
    assert (H1 : User.computePower u1 - User.gpuLevel u1
                 = User.computePower u - User.gpuLevel u /\
                 User.compute u1 - User.xp u1 = User.compute u - User.xp u).
    { destruct Hcase as [[_ ->]|[_ [(env & _ & ->)|(env & _ & Hge & ->)]]].
      - auto.
      - destruct (tapped_fields (now env) u) as (_ & X & C & _ & G & P & _).
        rewrite X, C, G, P. break_if; split; lia.
      - destruct (boosted_fields (now env) u) as (_ & _ & X & C & G & P & _).
        rewrite X, C, G, P. split; lia. }
    destruct (IH _ u1 F1) as (u' & F & D1 & D2).
    exists u'. split; [assumption|]. split; lia.
Qed.

Lemma progression_conserved_witness :
  let u := player 1 11 24999 1 499 0 None 1 None in
  let requests := [TapRequest (quietEnv 1000); BoostRequest (quietEnv 3000);
                   TapRequest (quietEnv 4000)] in
  exists u',
    User.findOneByTelegramId 11 (users (serve requests 11 (storeOf [u])))
    = Some u' /\
    User.computePower u' - User.gpuLevel u' = 1 - 0 /\
    User.compute u' - User.xp u' = 0 - 24999.
Proof.
  intros u requests.
  apply (@progression_conserved requests 11 (storeOf [u]) u).
  reflexivity.
Defined.

Lemma findById_save_other (id : Z) (doc : User.t) (coll : list User.t) :
  id <> User._id doc ->
  User.findById id (User.save doc coll) = User.findById id coll.
Proof.
  intros Hne. unfold User.findById, User.save.
  induction coll as [|x coll IH]; [reflexivity|]. cbn [map find].
  destruct (Z.eqb_spec (User._id x) (User._id doc)) as [e|n].
  - destruct (Z.eqb_spec (User._id doc) id); [congruence|].
    destruct (Z.eqb_spec (User._id x) id); [congruence|]. exact IH.
  - destruct (User._id x =? id); [reflexivity|exact IH].
Qed.

(** X5. Taps and boosts of one user never touch anybody else: after any
    sequence of them every document with another [_id] is found as it was,
    and the quests and the referral edges are the same.  In particular no
    referrer's [xp] moves when a referred user taps. *)
Theorem others_untouched (requests : list Request) (tid : Z) :
  forall (w : World) (u : User.t),
    User.findOneByTelegramId tid (users w) = Some u ->
    (forall id, id <> User._id u ->
                User.findById id (users (serve requests tid w))
                = User.findById id (users w)) /\
    quests (serve requests tid w) = quests w /\
    referrals (serve requests tid w) = referrals w.
Proof.
  induction requests as [|request rest IH]; intros w u Hfind.
  - cbn [serve]. auto.
  - cbn [serve].
    destruct (serveOne_user request tid w Hfind) as (u1 & F1 & Hcase & Q1 & R1).
    destruct (IH _ u1 F1) as (Hothers & Q & R).
    assert (Hid : User._id u1 = User._id u).
    { destruct Hcase as [[_ ->]|[_ [(env & _ & ->)|(env & _ & _ & ->)]]].
      - reflexivity.
      - apply tapped_id.
      - apply boosted_id. }
    split; [|split; congruence].
    intros id Hne. rewrite Hothers by congruence.
    destruct Hcase as [[-> _]|[-> _]]; [reflexivity|].
    apply findById_save_other. congruence.
Qed.

Lemma others_untouched_witness :
  let requests := [TapRequest (quietEnv 1000); TapRequest (quietEnv 2000)] in
  (forall id, id <> 1 ->
              User.findById id (users (serve requests 11 referralChain))
              = User.findById id (users referralChain)) /\
  quests (serve requests 11 referralChain) = quests referralChain /\
  referrals (serve requests 11 referralChain) = referrals referralChain.
Proof.
  intros requests.
  apply (@others_untouched requests 11 referralChain
           (player 1 11 0 1 0 0 None 0 (Some 2))).
  reflexivity.
Defined.

(** X6. The snapshot of a 200 answer of [tap] is the state that was
    saved: each of its seven fields is the field of the stored document. *)
Theorem tap_snapshot_is_stored (env : Env) (tid : Z) (w : World)
    (message : string) (s : TapSnapshot) :
  response (UserController.tap env tid) w
  = Normal (json 200 (TapSuccessful message s)) ->
  exists u',
    User.findOneByTelegramId tid (users (after (UserController.tap env tid) w))
    = Some u' /\
    s = mkTapSnapshot (User.xp u') (User.compute u') (User.totalTaps u')
          (User.computePower u') (User.gpuLevel u') (User.cooldownEndTime u')
          (User.boostCount u').
Proof.
  intros Hresp.
  destruct (User.findOneByTelegramId tid (users w)) as [u|] eqn:Hfind.
  2:{ unfold response in Hresp.
      rewrite (tap_unknown_user env tid w Hfind) in Hresp.
      discriminate Hresp. }
  destruct (UserController.coolingDown (now env) u) as [t|] eqn:Hcool.
  { unfold response in Hresp. rewrite (tap_rejected env tid w Hfind Hcool) in Hresp.
    discriminate Hresp. }
  destruct (tap_accepted env tid w Hfind Hcool)
    as (r & lb & ls & E & _ & Hok & Hfail).
  destruct (tap_accepted_store env tid w Hfind Hcool) as (_ & F & _).
  exists (tapped (now env) u). split; [assumption|].
  unfold response in Hresp. rewrite E in Hresp. cbn [fst] in Hresp.
  destruct (updateEntryFails_cases env) as [Hall|Hex].
  - rewrite (Hok Hall) in Hresp. injection Hresp as _ <-. reflexivity.
  - destruct (Hfail Hex) as (win & e & _ & -> & _). discriminate Hresp.
Qed.

Lemma tap_snapshot_is_stored_witness :
  let w := storeOf [player 1 11 24999 1 499 0 None 0 None] in
  let s := mkTapSnapshot 25000 1 500 2 1 (Some 11000) 0 in
  exists u',
    User.findOneByTelegramId 11
      (users (after (UserController.tap (quietEnv 1000) 11) w)) = Some u' /\
    s = mkTapSnapshot (User.xp u') (User.compute u') (User.totalTaps u')
          (User.computePower u') (User.gpuLevel u') (User.cooldownEndTime u')
          (User.boostCount u').
Proof.
  intros w s.
  apply (@tap_snapshot_is_stored (quietEnv 1000) 11 w "Tap successful" s).
  reflexivity.
Defined.

(** X7. The cooldown in time: after a tap that brought [totalTaps] to a
    multiple of 500 at time [now], every tap before [now + 10 s] is rejected
    with that end time and changes nothing, and a tap at [now + 10 s] or
    later is accepted again (the end time itself is not in the cooldown). *)
Theorem cooldown_window (env env' : Env) (tid : Z) (w : World) (u : User.t) :
  User.findOneByTelegramId tid (users w) = Some u ->
  ~ cooldownActive (now env) u ->
  Z.rem (User.totalTaps u + 1) 500 = 0 ->
  let w1 := after (UserController.tap env tid) w in
  (now env' < now env + 10 * 1000 ->
   response (UserController.tap env' tid) w1
   = Normal (json 400 (CoolingDown "Cooling down" (now env + 10 * 1000))) /\
   users (after (UserController.tap env' tid) w1) = users w1) /\
  (now env + 10 * 1000 <= now env' ->
   exists u2,
     User.findOneByTelegramId tid (users (after (UserController.tap env' tid) w1))
     = Some u2 /\
     User.totalTaps u2 = User.totalTaps u + 2).
Proof.
  intros Hfind Hcool Hrem w1. apply coolingDown_None in Hcool.
  destruct (tap_accepted_store env tid w Hfind Hcool) as (_ & F & _).
  fold w1 in F.
  destruct (tapped_fields (now env) u) as (T & _ & _ & Cd & _).
  apply Z.eqb_eq in Hrem. rewrite Hrem in Cd.
  split.
  - intros Hlt.
    assert (Hc : UserController.coolingDown (now env') (tapped (now env) u)
                 = Some (now env + 10 * 1000))
      by (apply coolingDown_Some; auto).
    unfold response, after. rewrite (tap_rejected env' tid w1 F Hc).
    split; reflexivity.
  - intros Hge.
    assert (Hc : UserController.coolingDown (now env') (tapped (now env) u) = None).
    { apply coolingDown_None. intros [t [Ht Hlt]]. rewrite Cd in Ht.
      injection Ht as <-. lia. }
    destruct (tap_accepted_store env' tid w1 F Hc) as (_ & F2 & _).
    exists (tapped (now env') (tapped (now env) u)). split; [assumption|].
    rewrite (proj1 (tapped_fields (now env') (tapped (now env) u))), T. lia.
Qed.

Lemma cooldown_window_witness :
  let u := player 1 11 0 1 499 0 None 0 None in
  let w1 := after (UserController.tap (quietEnv 1000) 11) (storeOf [u]) in
  (now (quietEnv 10999) < 1000 + 10 * 1000 ->
   response (UserController.tap (quietEnv 10999) 11) w1
   = Normal (json 400 (CoolingDown "Cooling down" (1000 + 10 * 1000))) /\
   users (after (UserController.tap (quietEnv 10999) 11) w1) = users w1) /\
  (1000 + 10 * 1000 <= now (quietEnv 10999) ->
   exists u2,
     User.findOneByTelegramId 11
       (users (after (UserController.tap (quietEnv 10999) 11) w1)) = Some u2 /\
     User.totalTaps u2 = 499 + 2).
Proof.
  intros u w1.
  apply (@cooldown_window (quietEnv 1000) (quietEnv 10999) 11 (storeOf [u]) u).
  - reflexivity.
  - intros [t [H _]]. discriminate H.
  - reflexivity.
Defined.

Lemma tapped_lastTapTime (now : Z) (u : User.t) :
  User.lastTapTime (tapped now u) = Some now.
Proof.
  unfold tapped. cbv zeta. simpl_user.
  destruct (Z.rem (User.totalTaps u + 1) 500 =? 0); simpl_user;
    destruct (User.xp u + User.computePower u >=? (User.gpuLevel u + 1) * 25000);
    simpl_user;
    destruct (Z.rem (User.xp u + User.computePower u) 2000 =? 0);
    reflexivity.
Qed.

(** X8. A boost ends any cooldown: after a boost that went through, the
    next tap is accepted at whatever time it comes, also before the end
    time the boost removed, and [totalTaps] stands at its old value plus
    101. *)
Theorem boost_then_tap (env env' : Env) (tid : Z) (w : World) (u : User.t) :
  User.findOneByTelegramId tid (users w) = Some u ->
  1 <= User.boostCount u ->
  let w1 := after (UserController.boost env tid) w in
  exists u2,
    User.findOneByTelegramId tid (users (after (UserController.tap env' tid) w1))
    = Some u2 /\
    User.totalTaps u2 = User.totalTaps u + 101 /\
    User.lastTapTime u2 = Some (now env').
Proof.
  intros Hfind Hcount w1.
  assert (F : User.findOneByTelegramId tid (users w1) = Some (boosted (now env) u)).
  { unfold w1, after. rewrite (boost_run env tid w Hfind Hcount).
    cbn [snd with_users users].
    apply findOneByTelegramId_save with (u := u); [assumption| |].
    - apply boosted_id.
    - rewrite (proj2 (boosted_id (now env) u)).
      eapply findOneByTelegramId_telegramId; eassumption. }
  assert (Hc : UserController.coolingDown (now env') (boosted (now env) u) = None)
    by reflexivity.
  destruct (tap_accepted_store env' tid w1 F Hc) as (_ & F2 & _).
  exists (tapped (now env') (boosted (now env) u)). split; [assumption|]. split.
  - rewrite (proj1 (tapped_fields _ _)).
    destruct (boosted_fields (now env) u) as (_ & -> & _). lia.
  - apply tapped_lastTapTime.
Qed.

Lemma boost_then_tap_witness :
  let u := player 1 11 500 1 500 0 (Some 11000) 1 None in
  let w1 := after (UserController.boost (quietEnv 2000) 11) (storeOf [u]) in
  exists u2,
    User.findOneByTelegramId 11
      (users (after (UserController.tap (quietEnv 2001) 11) w1)) = Some u2 /\
    User.totalTaps u2 = 500 + 101 /\
    User.lastTapTime u2 = Some 2001.
Proof.
  intros u w1.
  apply (@boost_then_tap (quietEnv 2000) (quietEnv 2001) 11 (storeOf [u]) u).
  - reflexivity.
  - cbn. lia.
Defined.

(** ** Leaderboard entries written by a tap *)

Lemma same_key_refl (win : Leaderboard.window) (p u : Z) (name : string) (s : Z) :
  Leaderboard.same_key win p u (Leaderboard.mk win p u name s) = true.
Proof.
  unfold Leaderboard.same_key. cbn. rewrite !Z.eqb_refl.
  destruct win; reflexivity.
Qed.

Lemma leaderboardEntry_upsert_same (win : Leaderboard.window) (p u : Z)
    (name : string) (s : Z) (lb : list Leaderboard.t) :
  leaderboardEntry win p u (Leaderboard.upsert win p u name s lb)
  = Some (Leaderboard.mk win p u name s).
Proof.
  unfold leaderboardEntry.
  induction lb as [|e lb IH]; cbn [Leaderboard.upsert find].
  - now rewrite same_key_refl.
  - destruct (Leaderboard.same_key win p u e) eqn:E; cbn [find].
    + now rewrite same_key_refl.
    + rewrite E. exact IH.
Qed.

Lemma leaderboardEntry_upsert_other (win win' : Leaderboard.window)
    (p p' u u' : Z) (name : string) (s : Z) (lb : list Leaderboard.t) :
  win <> win' ->
  leaderboardEntry win p u (Leaderboard.upsert win' p' u' name s lb)
  = leaderboardEntry win p u lb.
Proof.
  intros Hne. unfold leaderboardEntry.
  assert (Hnew : Leaderboard.same_key win p u (Leaderboard.mk win' p' u' name s)
                 = false).
  { unfold Leaderboard.same_key. cbn. destruct win, win'; try reflexivity;
      contradiction. }
  induction lb as [|e lb IH]; cbn [Leaderboard.upsert find].
  - now rewrite Hnew.
  - destruct (Leaderboard.same_key win' p' u' e) eqn:E; cbn [find].
    + rewrite Hnew.
      assert (He : Leaderboard.same_key win p u e = false).
      { unfold Leaderboard.same_key in *.
        destruct (Leaderboard.type e), win, win'; try reflexivity;
          try contradiction; discriminate E. }
      now rewrite He.
    + destruct (Leaderboard.same_key win p u e); [reflexivity|exact IH].
Qed.

Lemma leaderboards_ok (env : Env) (p1 p2 p3 id : Z) (name : string)
    (s1 s2 s3 : Z) (w : World) :
  (forall win, updateEntryFails env win = None) ->
  Promise_all
    [Leaderboard_updateEntry env Leaderboard.daily p1 id name s1;
     Leaderboard_updateEntry env Leaderboard.weekly p2 id name s2;
     Leaderboard_updateEntry env Leaderboard.all_time p3 id name s3] w
  = (Normal tt,
     with_leaderboard
       (Leaderboard.upsert Leaderboard.all_time p3 id name s3
          (Leaderboard.upsert Leaderboard.weekly p2 id name s2
             (Leaderboard.upsert Leaderboard.daily p1 id name s1
                (leaderboard w)))) w).
Proof.
  intros Hall. unfold Promise_all, Leaderboard_updateEntry.
  rewrite !Hall. reflexivity.
Qed.

(** An accepted tap with the three leaderboard calls working, in full. *)
Lemma tap_ok_run (env : Env) (tid : Z) (w : World) (u : User.t) :
  User.findOneByTelegramId tid (users w) = Some u ->
  UserController.coolingDown (now env) u = None ->
  (forall win, updateEntryFails env win = None) ->
  let u' := tapped (now env) u in
  leaderboard (after (UserController.tap env tid) w)
  = Leaderboard.upsert Leaderboard.all_time (allTimeDate env) (User._id u')
      (User.username u') (User.computePower u')
      (Leaderboard.upsert Leaderboard.weekly (weekStart env) (User._id u')
         (User.username u') (User.compute u')
         (Leaderboard.upsert Leaderboard.daily (today env) (User._id u')
            (User.username u') (User.compute u') (leaderboard w))).
Proof.
  intros Hfind Hcool Hall u'.
  unfold after, UserController.tap, try_catch.
  rewrite bind_run. unfold User_findOne_telegramId at 1.
  rewrite Hfind. cbv beta iota zeta. rewrite Hcool. simpl_user.
  rewrite bind_run, guarded_log_run. cbv beta iota. simpl_user.
  rewrite bind_run, guarded_log_run. cbv beta iota. simpl_user.
  rewrite bind_run. unfold User_save at 1. cbv beta iota.
  rewrite bind_run.
  match goal with
  | |- context [UserController.distributeReferralXP ?i ?x ?w0] =>
      destruct (distributeReferralXP_store i x w0) as [ls [E C]]; rewrite E;
      clear E
  end.
  cbv beta iota. rewrite bind_run.
  rewrite (leaderboards_ok _ _ _ _ _ _ _ _ _ _ Hall). cbv beta iota.
  rewrite bind_run. unfold logger at 1, ret. cbv beta iota.
  unfold u', tapped, with_logs, with_users, with_leaderboard.
  cbv zeta. simpl_user. cbn [snd users quests referrals leaderboard logs].
  reflexivity.
Qed.

(** X9. When the three leaderboard updates of an accepted tap go through,
    the daily and the weekly entry of the user hold the user's cumulative
    [compute] and the all-time entry holds [computePower], each with the
    user's [username] and under the period start computed for the tap. *)
Theorem tap_leaderboard_scores (env : Env) (tid : Z) (w : World) (u : User.t) :
  User.findOneByTelegramId tid (users w) = Some u ->
  ~ cooldownActive (now env) u ->
  (forall win, updateEntryFails env win = None) ->
  let lb := leaderboard (after (UserController.tap env tid) w) in
  exists u',
    User.findOneByTelegramId tid (users (after (UserController.tap env tid) w))
    = Some u' /\
    leaderboardEntry Leaderboard.daily (today env) (User._id u) lb
    = Some (Leaderboard.mk Leaderboard.daily (today env) (User._id u)
              (User.username u) (User.compute u')) /\
    leaderboardEntry Leaderboard.weekly (weekStart env) (User._id u) lb
    = Some (Leaderboard.mk Leaderboard.weekly (weekStart env) (User._id u)
              (User.username u) (User.compute u')) /\
    leaderboardEntry Leaderboard.all_time (allTimeDate env) (User._id u) lb
    = Some (Leaderboard.mk Leaderboard.all_time (allTimeDate env) (User._id u)
              (User.username u) (User.computePower u')).
Proof.
  intros Hfind Hcool Hall lb. apply coolingDown_None in Hcool.
  destruct (tap_accepted_store env tid w Hfind Hcool) as (_ & F & _).
  exists (tapped (now env) u). split; [assumption|].
  unfold lb. rewrite (tap_ok_run env tid w Hfind Hcool Hall). cbv zeta.
  assert (Hid : User._id (tapped (now env) u) = User._id u) by apply tapped_id.
  assert (Hname : User.username (tapped (now env) u) = User.username u).
  { unfold tapped. cbv zeta. simpl_user.
    destruct (Z.rem (User.totalTaps u + 1) 500 =? 0); simpl_user;
      destruct (User.xp u + User.computePower u >=? (User.gpuLevel u + 1) * 25000);
      simpl_user;
      destruct (Z.rem (User.xp u + User.computePower u) 2000 =? 0);
      reflexivity. }
  rewrite Hid, Hname. repeat split.
  - rewrite !leaderboardEntry_upsert_other by discriminate.
    apply leaderboardEntry_upsert_same.
  - rewrite leaderboardEntry_upsert_other by discriminate.
    apply leaderboardEntry_upsert_same.
  - apply leaderboardEntry_upsert_same.
Qed.

Lemma tap_leaderboard_scores_witness :
  let u := player 1 11 24999 3 10 0 None 0 None in
  let w := storeOf [u] in
  let env := quietEnv 1000 in
  let lb := leaderboard (after (UserController.tap env 11) w) in
  exists u',
    User.findOneByTelegramId 11 (users (after (UserController.tap env 11) w))
    = Some u' /\
    leaderboardEntry Leaderboard.daily 0 1 lb
    = Some (Leaderboard.mk Leaderboard.daily 0 1 "player" (User.compute u')) /\
    leaderboardEntry Leaderboard.weekly 0 1 lb
    = Some (Leaderboard.mk Leaderboard.weekly 0 1 "player" (User.compute u')) /\
    leaderboardEntry Leaderboard.all_time 0 1 lb
    = Some (Leaderboard.mk Leaderboard.all_time 0 1 "player"
              (User.computePower u')).
Proof.
  intros u w env lb.
  apply (@tap_leaderboard_scores env 11 w u).
  - reflexivity.
  - intros [t [H _]]. discriminate H.
  - intros win. reflexivity.
Defined.

(** ** Further properties of the claim handler *)

Lemma not_verifier_type (ty : string) :
  ~ In ty verifierTypes ->
  forallb (fun known => negb (String.eqb ty known)) verifierTypes = true.
Proof.
  intros Hnin. apply forallb_forall. intros known Hin.
  destruct (String.eqb_spec ty known) as [->|_]; [contradiction|reflexivity].
Qed.

(** X10. When the verifier throws, the claim is answered 500 with the
    thrown message, the error is logged and nothing is credited.  That is
    the fate of every quest whose type has no [case] in the verifier ([bonus],
    which the Quest schema admits, among them), and of a [telegram] quest
    that lacks its [action] or [targetId] or a user without [telegramId]. *)
Theorem claim_verifier_error (env : Env) (tid : Z) (qid : string) (w : World)
    (u : User.t) (q : Quest.t) :
  User.findOneByTelegramId tid (users w) = Some u ->
  Quest.findById qid (quests w) = Some q ->
  ~ In qid (User.completedQuests u) ->
  (forall e,
     response (QuestRoutes.verifyQuestCompletion env (Some u) (Some q)) w
     = Throw e ->
     QuestRoutes.claimQuest env tid qid w
     = (Normal (json 500 (MessageError "Error claiming quest" e)),
        with_logs (logs w ++ [ErrorClaimingQuest e]) w)) /\
  (~ In (Quest.type q) verifierTypes ->
   response (QuestRoutes.verifyQuestCompletion env (Some u) (Some q)) w
   = Throw "Unknown quest type") /\
  (Quest.type q = "telegram" ->
   QuestRoutes.truthy (Quest.action q) = false \/
   QuestRoutes.truthy (Quest.targetId q) = false \/
   User.telegramId u = 0 ->
   response (QuestRoutes.verifyQuestCompletion env (Some u) (Some q)) w
   = Throw "Missing data").
Proof.
  intros Hfind Hquest Hnin. split; [|split].
  - intros e He.
    rewrite (claim_fresh env tid qid w Hfind Hquest Hnin), He. reflexivity.
  - intros Hty. apply not_verifier_type in Hty.
    cbn [forallb verifierTypes] in Hty.
    repeat (apply andb_prop in Hty; destruct Hty as [? Hty]).
    repeat match goal with
           | H : negb _ = true |- _ => apply negb_true_iff in H
           end.
    unfold response, QuestRoutes.verifyQuestCompletion. cbv zeta.
    repeat match goal with
           | H : String.eqb _ _ = false |- _ => rewrite H; clear H
           end.
    reflexivity.
  - intros Hty Hmiss.
    unfold response, QuestRoutes.verifyQuestCompletion. cbv zeta. rewrite Hty.
    reflexivity.
Qed.

Lemma claim_verifier_error_witness :
  let q := Quest.mk "64b7f0c2a1d3e4f5a6b7c8d3" "Bonus round" "A bonus"
             250 "bonus" 99999 in
  let u := player 1 11 10 1 3 0 None 0 None in
  let w := questStore u q in
  let env := quietEnv 1000 in
  In "bonus" schemaTypes /\
  QuestRoutes.claimQuest env 11 "64b7f0c2a1d3e4f5a6b7c8d3" w
  = (Normal (json 500 (MessageError "Error claiming quest" "Unknown quest type")),
     with_logs (logs w ++ [ErrorClaimingQuest "Unknown quest type"]) w).
Proof.
  intros q u w env.
  split; [right; right; left; reflexivity|].
  assert (Hnin : ~ In "64b7f0c2a1d3e4f5a6b7c8d3" (User.completedQuests u)) by (intros []).
  assert (Hty : ~ In (Quest.type q) verifierTypes).
  { cbn. intros H.
    repeat match goal with
           | H : _ \/ _ |- _ => destruct H as [H|H]
           end; try discriminate H; exact H. }
  destruct (@claim_verifier_error env 11 "64b7f0c2a1d3e4f5a6b7c8d3" w u q eq_refl eq_refl Hnin)
    as (Hthrow & Hunknown & _).
  exact (Hthrow "Unknown quest type" (Hunknown Hty)).
Defined.

(** What one claim request does to the user who sends it. *)
Lemma claim_step (env : Env) (tid : Z) (qid : string) (w : World) (u : User.t) :
  User.findOneByTelegramId tid (users w) = Some u ->
  let w1 := after (QuestRoutes.claimQuest env tid qid) w in
  quests w1 = quests w /\
  (users w1 = users w /\
   User.findOneByTelegramId tid (users w1) = Some u /\
   ~ succeeded (response (QuestRoutes.claimQuest env tid qid) w)
   \/
   exists q,
     Quest.findById qid (quests w) = Some q /\
     ~ In qid (User.completedQuests u) /\
     users w1 = User.save (claimed qid q u) (users w) /\
     User.findOneByTelegramId tid (users w1) = Some (claimed qid q u) /\
     succeeded (response (QuestRoutes.claimQuest env tid qid) w)).
Proof.
  intros Hfind w1. unfold w1, after, response.
  destruct (Quest.findById qid (quests w)) as [q|] eqn:Hq.
  2:{ rewrite (claim_quest_missing env tid qid w Hfind Hq). cbn [fst snd].
      split; [reflexivity|]. left. repeat split; try assumption.
      intros [b Hb]. discriminate Hb. }
  destruct (in_dec string_dec qid (User.completedQuests u)) as [Hin|Hnin].
  { rewrite (claim_already env tid qid w Hfind Hq Hin). cbn [fst snd].
    split; [reflexivity|]. left. repeat split; try assumption.
    intros [b Hb]. discriminate Hb. }
  pose proof (claim_fresh env tid qid w Hfind Hq Hnin) as E.
  destruct (response (QuestRoutes.verifyQuestCompletion env (Some u) (Some q)) w)
    as [v|e] eqn:Hver.
  2:{ rewrite E. cbn [fst snd with_logs users quests].
      split; [reflexivity|]. left. repeat split; try assumption.
      intros [b Hb]. discriminate Hb. }
  destruct (negb v && String.eqb (Quest.type q) "telegram") eqn:Hguard.
  { rewrite E. cbn [fst snd].
    split; [reflexivity|]. left. repeat split; try assumption.
    intros [b Hb]. discriminate Hb. }
  destruct (claim_credit env tid qid w Hfind Hq Hnin Hver Hguard)
    as (_ & Hquests & F).
  unfold after in Hquests, F.
  split; [assumption|]. right. exists q.
  repeat split; try assumption.
  - rewrite E. reflexivity.
  - rewrite E. eexists. reflexivity.
Qed.

Lemma claim_keeps_quests (env : Env) (tid : Z) (qid : string) (w : World) :
  quests (after (QuestRoutes.claimQuest env tid qid) w) = quests w.
Proof.
  destruct (User.findOneByTelegramId tid (users w)) as [u|] eqn:Hfind.
  - exact (proj1 (claim_step env tid qid w Hfind)).
  - unfold after. now rewrite (claim_unknown_user env tid qid w Hfind).
Qed.

(** X11. The claim handler writes to the users collection only when it
    answers 200: after every other answer (400, 404, 500) the collection is
    what it was; after a 200 the one change is the claiming user's document,
    with the reward added and the quest appended. *)
Theorem claim_writes_only_on_success (env : Env) (tid : Z) (qid : string)
    (w : World) :
  let w1 := after (QuestRoutes.claimQuest env tid qid) w in
  (~ succeeded (response (QuestRoutes.claimQuest env tid qid) w) ->
   users w1 = users w) /\
  (succeeded (response (QuestRoutes.claimQuest env tid qid) w) ->
   exists u q,
     User.findOneByTelegramId tid (users w) = Some u /\
     Quest.findById qid (quests w) = Some q /\
     users w1 = User.save (claimed qid q u) (users w)) /\
  quests w1 = quests w.
Proof.
  intros w1.
  destruct (User.findOneByTelegramId tid (users w)) as [u|] eqn:Hfind.
  - destruct (claim_step env tid qid w Hfind) as (Q & Hcase). fold w1 in Q, Hcase.
    destruct Hcase as [(U & _ & Hns)|(q & Hq & _ & U & _ & Hs)].
    + split; [auto|]. split; [contradiction|assumption].
    + split; [contradiction|]. split; [|assumption].
      intros _. exists u, q. auto.
  - pose proof (claim_unknown_user env tid qid w Hfind) as E.
    unfold w1, after, response. rewrite E. cbn [fst snd].
    split; [reflexivity|]. split; [|reflexivity].
    intros [b Hb]. discriminate Hb.
Qed.

Lemma totalReward_app (w : World) (l1 l2 : list string) :
  totalReward w (l1 ++ l2) = totalReward w l1 + totalReward w l2.
Proof.
  unfold totalReward. induction l1 as [|x l1 IH]; cbn; [reflexivity|].
  rewrite IH. lia.
Qed.

Lemma claimRun_quests (claims : list (Env * string)) (tid : Z) :
  forall w, quests (claimRun claims tid w) = quests w.
Proof.
  induction claims as [|[env qid] rest IH]; intros w; [reflexivity|].
  cbn [claimRun]. rewrite IH.
  apply claim_keeps_quests.
Qed.



(** ** The handlers keyed by [req.user] *)

Lemma findById_id (id : Z) (coll : list User.t) (u : User.t) :
  User.findById id coll = Some u -> User._id u = id.
Proof.
  unfold User.findById. intros H. apply find_some in H.
  destruct H as [_ H]. now apply Z.eqb_eq in H.
Qed.

Lemma findById_save_same (id : Z) (coll : list User.t) (u u' : User.t) :
  User.findById id coll = Some u ->
  User._id u' = User._id u ->
  User.findById id (User.save u' coll) = Some u'.
Proof.
  intros Hfind Hid. pose proof (findById_id _ _ Hfind) as Hu.
  unfold User.findById, User.save in *.
  induction coll as [|x coll IH]; cbn [map find] in *; [discriminate|].
  destruct (Z.eqb_spec (User._id x) id) as [e|n].
  - injection Hfind as ->. rewrite Hid, Z.eqb_refl.
    rewrite Hid, Hu, Z.eqb_refl. reflexivity.
  - destruct (Z.eqb_spec (User._id x) (User._id u')) as [e'|n'].
    + rewrite Hid, Hu in e'. contradiction.
    + apply Z.eqb_neq in n. rewrite n. now apply IH.
Qed.

Lemma upgradeGPU_run (id : Z) (s : Server) (u : User.t) :
  User.findById id (users (world s)) = Some u ->
  UserControllerRest.upgradeGPU id s
  = (Normal (reply 200 (PGpuUpgraded "GPU upgraded successfully"
                          (User.computePower u + 1))),
     mkServer
       (with_users
          (User.save (User.set_computePower (User.computePower u + 1) u)
             (users (world s))) (world s))
       (journal s ++ [InfoGpuUpgradedFor (User.telegramId u)
                        (User.computePower u + 1)])).
Proof.
  intros Hfind.
  unfold UserControllerRest.upgradeGPU, htry_catch, hbind, lift, User_findById.
  rewrite Hfind. reflexivity.
Qed.

(** X13. [upgradeGPU] is free and unconditional: it adds 1 to
    [computePower] and changes nothing else of the user, neither [xp] nor
    [gpuLevel]; the next tap the user gets through then earns one [xp] more
    than it would have. *)
Theorem upgradeGPU_then_tap (env : Env) (id tid : Z) (s : Server) (u : User.t) :
  User.findById id (users (world s)) = Some u ->
  User.findOneByTelegramId tid (users (world s)) = Some u ->
  ~ cooldownActive (now env) u ->
  let s1 := serverAfter (UserControllerRest.upgradeGPU id) s in
  User.findById id (users (world s1))
  = Some (User.set_computePower (User.computePower u + 1) u) /\
  exists u2,
    User.findOneByTelegramId tid
      (users (after (UserController.tap env tid) (world s1))) = Some u2 /\
    User.xp u2 = User.xp u + User.computePower u + 1.
Proof.
  intros Hid Htid Hcool s1.
  set (u1 := User.set_computePower (User.computePower u + 1) u).
  assert (Hw : users (world s1) = User.save u1 (users (world s))).
  { unfold s1, serverAfter. rewrite (upgradeGPU_run id s Hid). reflexivity. }
  assert (F1 : User.findOneByTelegramId tid (users (world s1)) = Some u1).
  { rewrite Hw. apply findOneByTelegramId_save with (u := u);
      [assumption|reflexivity|].
    change (User.telegramId u = tid).
    eapply findOneByTelegramId_telegramId; eassumption. }
  split.
  - rewrite Hw. apply findById_save_same with (u := u); [assumption|reflexivity].
  - assert (Hc : UserController.coolingDown (now env) u1 = None).
    { apply coolingDown_None. exact Hcool. }
    destruct (tap_accepted_store env tid (world s1) F1 Hc) as (_ & F2 & _).
    exists (tapped (now env) u1). split; [assumption|].
    destruct (tapped_fields (now env) u1) as (_ & X & _). rewrite X.
    unfold u1. simpl_user. lia.
Qed.

Lemma upgradeGPU_then_tap_witness :
  let u := player 1 11 100 3 10 0 None 0 None in
  let s := serverOf (storeOf [u]) in
  let s1 := serverAfter (UserControllerRest.upgradeGPU 1) s in
  User.findById 1 (users (world s1))
  = Some (User.set_computePower (3 + 1) u) /\
  exists u2,
    User.findOneByTelegramId 11
      (users (after (UserController.tap (quietEnv 1000) 11) (world s1)))
    = Some u2 /\
    User.xp u2 = 100 + 3 + 1.
Proof.
  intros u s s1.
  apply (@upgradeGPU_then_tap (quietEnv 1000) 1 11 s u).
  - reflexivity.
  - reflexivity.
  - intros [t [H _]]. discriminate H.
Defined.

(** X14. From the epoch on, [getCooldownStatus] and [tap] agree: the
    status says [isCoolingDown] exactly when a tap at the same instant is
    rejected with the cooldown answer; the status request itself changes
    nothing in the store. *)
Theorem cooldown_status_agrees_with_tap (env : Env) (id tid : Z) (s : Server)
    (u : User.t) :
  User.findById id (users (world s)) = Some u ->
  User.findOneByTelegramId tid (users (world s)) = Some u ->
  0 <= now env ->
  exists b,
    replyOf (UserControllerRest.getCooldownStatus env id) s
    = Normal (reply 200 (PCooldownStatus (User.cooldownEndTime u) b)) /\
    world (serverAfter (UserControllerRest.getCooldownStatus env id) s) = world s /\
    (b = true <->
     exists t,
       response (UserController.tap env tid) (world s)
       = Normal (json 400 (CoolingDown "Cooling down" t))).
Proof.
  intros Hid Htid Hnow.
  exists (UserControllerRest.isCoolingDown (now env) u).
  unfold replyOf, serverAfter, UserControllerRest.getCooldownStatus,
    htry_catch, hbind, lift, User_findById.
  rewrite Hid. cbn [fst snd world].
  split; [reflexivity|]. split; [reflexivity|].
  destruct (UserController.coolingDown (now env) u) as [t|] eqn:Hcool.
  - unfold response. rewrite (tap_rejected env tid (world s) Htid Hcool).
    apply coolingDown_Some in Hcool. destruct Hcool as [Hend Hlt].
    unfold UserControllerRest.isCoolingDown. rewrite Hend. split.
    + intros _. exists t. reflexivity.
    + intros _. apply Z.gtb_lt. exact Hlt.
  - split.
    + intros Hb. exfalso. apply coolingDown_None in Hcool. apply Hcool.
      unfold UserControllerRest.isCoolingDown in Hb. unfold cooldownActive.
      destruct (User.cooldownEndTime u) as [t|].
      * exists t. split; [reflexivity|]. now apply Z.gtb_lt.
      * apply Z.gtb_lt in Hb. lia.
    + intros [t Ht]. exfalso.
      destruct (tap_accepted env tid (world s) Htid Hcool)
        as (r & lb & ls & E & _ & Hok & Hfail).
      unfold response in Ht. rewrite E in Ht. cbn [fst] in Ht.
      destruct (updateEntryFails_cases env) as [Hall|Hex].
      * rewrite (Hok Hall) in Ht. discriminate Ht.
      * destruct (Hfail Hex) as (win & e & _ & -> & _). discriminate Ht.
Qed.

Lemma cooldown_status_agrees_with_tap_witness :
  let u := player 1 11 500 1 500 0 (Some 11000) 0 None in
  let s := serverOf (storeOf [u]) in
  let env := quietEnv 5000 in
  exists b,
    replyOf (UserControllerRest.getCooldownStatus env 1) s
    = Normal (reply 200 (PCooldownStatus (Some 11000) b)) /\
    world (serverAfter (UserControllerRest.getCooldownStatus env 1) s) = world s /\
    (b = true <->
     exists t,
       response (UserController.tap env 11) (world s)
       = Normal (json 400 (CoolingDown "Cooling down" t))).
Proof.
  intros u s env.
  apply (@cooldown_status_agrees_with_tap env 1 11 s u).
  - reflexivity.
  - reflexivity.
  - cbn. lia.
Defined.

(** The fields of the tap engine in a document. *)
Lemma assignPath_progression (u : User.t) (update : string * string) :
  let u' := UserControllerRest.assignPath u update in
  User._id u' = User._id u /\ User.telegramId u' = User.telegramId u /\
  User.xp u' = User.xp u /\ User.compute u' = User.compute u /\
  User.computePower u' = User.computePower u /\
  User.totalTaps u' = User.totalTaps u /\ User.gpuLevel u' = User.gpuLevel u /\
  User.cooldownEndTime u' = User.cooldownEndTime u /\
  User.boostCount u' = User.boostCount u /\
  User.completedQuests u' = User.completedQuests u /\
  User.referredBy u' = User.referredBy u.
Proof.
  unfold UserControllerRest.assignPath.
  destruct (String.eqb (fst update) "username"); repeat split; reflexivity.
Qed.

Lemma assignPaths_progression (body : list (string * string)) :
  forall u,
    let u' := fold_left UserControllerRest.assignPath body u in
    User._id u' = User._id u /\ User.telegramId u' = User.telegramId u /\
    User.xp u' = User.xp u /\ User.compute u' = User.compute u /\
    User.computePower u' = User.computePower u /\
    User.totalTaps u' = User.totalTaps u /\ User.gpuLevel u' = User.gpuLevel u /\
    User.cooldownEndTime u' = User.cooldownEndTime u /\
    User.boostCount u' = User.boostCount u /\
    User.completedQuests u' = User.completedQuests u /\
    User.referredBy u' = User.referredBy u.
Proof.
  induction body as [|update rest IH]; intros u; cbn [fold_left].
  - repeat split; reflexivity.
  - specialize (IH (UserControllerRest.assignPath u update)). cbv zeta in IH.
    pose proof (assignPath_progression u update) as H. cbv zeta in H.
    destruct IH as (I1 & I2 & I3 & I4 & I5 & I6 & I7 & I8 & I9 & I10 & I11).
    destruct H as (H1 & H2 & H3 & H4 & H5 & H6 & H7 & H8 & H9 & H10 & H11).
    repeat split; congruence.
Qed.

(** X15. [updateProfile] cannot reach the progression of a user.  A body
    that names any key outside [username], [avatarUrl], [language], [theme]
    is refused with 400 and nothing is written, whatever else it names; a
    body that is accepted leaves [xp], [compute], [computePower],
    [totalTaps], [gpuLevel], [boostCount], [cooldownEndTime],
    [completedQuests] and [referredBy] of the saved document as they
    were. *)
Theorem updateProfile_whitelist (reqUser : User.t) (body : list (string * string))
    (s : Server) :
  User.findById (User._id reqUser) (users (world s)) = Some reqUser ->
  ((exists key value,
      In (key, value) body /\ ~ In key UserControllerRest.allowedUpdates) ->
   replyOf (UserControllerRest.updateProfile reqUser body) s
   = Normal (reply 400 (PError "Invalid updates!")) /\
   world (serverAfter (UserControllerRest.updateProfile reqUser body) s)
   = world s) /\
  ((forall key value,
      In (key, value) body -> In key UserControllerRest.allowedUpdates) ->
   exists u',
     replyOf (UserControllerRest.updateProfile reqUser body) s
     = Normal (reply 200 (PUser u')) /\
     User.findById (User._id reqUser)
       (users (world (serverAfter (UserControllerRest.updateProfile reqUser body) s)))
     = Some u' /\
     User.xp u' = User.xp reqUser /\
     User.compute u' = User.compute reqUser /\
     User.computePower u' = User.computePower reqUser /\
     User.totalTaps u' = User.totalTaps reqUser /\
     User.gpuLevel u' = User.gpuLevel reqUser /\
     User.boostCount u' = User.boostCount reqUser /\
     User.cooldownEndTime u' = User.cooldownEndTime reqUser /\
     User.completedQuests u' = User.completedQuests reqUser /\
     User.referredBy u' = User.referredBy reqUser).
Proof.
  intros Hfind.
  set (valid := forallb
                  (fun update =>
                     existsb (String.eqb update) UserControllerRest.allowedUpdates)
                  (map fst body)).
  assert (Hvalid : valid = true <->
                   forall key value,
                     In (key, value) body ->
                     In key UserControllerRest.allowedUpdates).
  { unfold valid. rewrite forallb_forall. split.
    - intros H key value Hin. apply includes_In. apply H.
      apply in_map_iff. exists (key, value). auto.
    - intros H key Hin. apply in_map_iff in Hin.
      destruct Hin as [[k v] [<- Hin]]. apply includes_In. eapply H. exact Hin. }
  split.
  - intros (key & value & Hin & Hbad).
    assert (Hv : valid = false).
    { destruct valid eqn:E; [|reflexivity]. exfalso. apply Hbad.
      apply (proj1 Hvalid eq_refl key value Hin). }
    unfold replyOf, serverAfter, UserControllerRest.updateProfile, htry_catch.
    cbv zeta. fold valid. rewrite Hv. split; reflexivity.
  - intros Hall. apply Hvalid in Hall.
    pose proof (assignPaths_progression body reqUser) as P. cbv zeta in P.
    destruct P as (P1 & P2 & P3 & P4 & P5 & P6 & P7 & P8 & P9 & P10 & P11).
    exists (fold_left UserControllerRest.assignPath body reqUser).
    unfold replyOf, serverAfter, UserControllerRest.updateProfile, htry_catch.
    cbv zeta. fold valid. rewrite Hall.
    cbn [negb hbind lift User_save journalLog hret fst snd world with_users users].
    split; [reflexivity|]. split.
    + apply findById_save_same with (u := reqUser); assumption.
    + repeat split; assumption.
Qed.

Lemma updateProfile_whitelist_witness :
  let u := player 1 11 100 3 10 0 None 2 None in
  let s := serverOf (storeOf [u]) in
  let body := [("username", "neo"); ("xp", "1000000")] in
  replyOf (UserControllerRest.updateProfile u body) s
  = Normal (reply 400 (PError "Invalid updates!")) /\
  world (serverAfter (UserControllerRest.updateProfile u body) s) = world s.
Proof.
  intros u s body.
  apply (proj1 (@updateProfile_whitelist u body s eq_refl)).
  exists "xp", "1000000". split.
  - right. left. reflexivity.
  - cbn. intros H.
    repeat match goal with
           | H : _ \/ _ |- _ => destruct H as [H|H]
           end; try discriminate H; exact H.
Defined.

(** ** Listing, creation and deletion of quests *)

Lemma questFindById_spec (id : string) (coll : list Quest.t) (q : Quest.t) :
  Quest.findById id coll = Some q -> In q coll /\ Quest._id q = id.
Proof.
  unfold Quest.findById. intros H. apply find_some in H.
  destruct H as [Hin H]. apply String.eqb_eq in H. auto.
Qed.

Lemma questFindById_app_new (id : string) (coll : list Quest.t) (q : Quest.t) :
  Quest.findById id coll = None ->
  Quest._id q = id ->
  Quest.findById id (coll ++ [q]) = Some q.
Proof.
  unfold Quest.findById. intros Hnone Hid.
  induction coll as [|x coll IH]; cbn [app find] in *.
  - rewrite Hid, String.eqb_refl. reflexivity.
  - destruct (String.eqb (Quest._id x) id); [discriminate|]. now apply IH.
Qed.

Lemma validation_passed (lib : Libraries) (body : NewQuest.t) :
  QuestRouter.validationErrors lib body = [] ->
  QuestRouter.isIn QuestRouter.routeTypes (NewQuest.type body) = true /\
  QuestRouter.isIntMin1 (NewQuest.xpReward body) = true.
Proof.
  unfold QuestRouter.validationErrors. intros H.
  repeat match goal with
         | H : _ ++ _ = [] |- _ => apply app_eq_nil in H; destruct H as [? H]
         end.
  split.
  - destruct (QuestRouter.isIn QuestRouter.routeTypes (NewQuest.type body));
      [reflexivity|discriminate].
  - destruct (QuestRouter.isIntMin1 (NewQuest.xpReward body));
      [reflexivity|discriminate].
Qed.

Lemma route_and_schema_types (ty : string) :
  existsb (String.eqb ty) QuestRouter.routeTypes = true ->
  existsb (String.eqb ty) schemaTypes = true ->
  ty = "daily" \/ ty = "weekly".
Proof.
  intros Hroute Hschema.
  apply includes_In in Hschema. cbn in Hschema.
  destruct Hschema as [<-|[<-|[<-|[]]]]; [auto|auto|].
  discriminate Hroute.
Qed.

(** What [Quest_create] returns and writes when it does not throw. *)
Lemma Quest_create_inv (lib : Libraries) (body : NewQuest.t) (s : Server) :
  match QuestRouter.Quest_create lib body s with
  | (Normal doc, s1) =>
      s1 = mkServer (with_quests (quests (world s) ++ [doc]) (world s))
             (journal s) /\
      Quest._id doc = newObjectId lib /\
      Some (Quest.type doc) = NewQuest.type body /\
      IntValue (Quest.xpReward doc) = NewQuest.xpReward body /\
      existsb (String.eqb (Quest.type doc)) schemaTypes = true
  | (Throw e, s1) => s1 = s /\ e = validationFailure lib body
  end.
Proof.
  unfold QuestRouter.Quest_create.
  destruct (option_map (trim lib) (NewQuest.title body)) as [title|];
    [|split; reflexivity].
  destruct (option_map (trim lib) (NewQuest.description body)) as [descr|];
    [|split; reflexivity].
  destruct (NewQuest.xpReward body) as [| |xp]; try (split; reflexivity).
  destruct (NewQuest.type body) as [ty|]; [|split; reflexivity].
  destruct (match NewQuest.expiresAt body with
            | Some d => castDate lib d
            | None => None
            end) as [expires|]; [|split; reflexivity].
  destruct (negb (String.eqb title "")) ; [|split; reflexivity].
  destruct (negb (String.eqb descr "")); [|split; reflexivity].
  destruct (existsb (String.eqb ty) schemaTypes) eqn:E; [|split; reflexivity].
  cbn. repeat split. exact E.
Qed.

(** X16. [POST /] can only ever create quests of type [daily] or
    [weekly]: the route's validator and the schema's [enum] share no other
    type.  A body with one of the eight other types the validator admits
    passes the validation and is then refused by the schema, answered 500
    with the message of mongoose's [ValidationError] and nothing stored;
    [bonus], which the schema admits, is refused by the validator with
    400. *)
Theorem quest_creation_types (lib : Libraries) (body : NewQuest.t) (s : Server) :
  (forall r,
     replyOf (QuestRouter.createQuest lib body) s = Normal r ->
     code r = 201 ->
     NewQuest.type body = Some "daily" \/ NewQuest.type body = Some "weekly") /\
  (QuestRouter.validationErrors lib body = [] ->
   NewQuest.type body <> Some "daily" ->
   NewQuest.type body <> Some "weekly" ->
   replyOf (QuestRouter.createQuest lib body) s
   = Normal (reply 500 (PMessageError "Error creating quest"
                          (validationFailure lib body))) /\
   world (serverAfter (QuestRouter.createQuest lib body) s) = world s) /\
  (NewQuest.type body = Some "bonus" ->
   exists errors,
     replyOf (QuestRouter.createQuest lib body) s
     = Normal (reply 400 (PErrors errors)) /\
     In "type" errors /\
     serverAfter (QuestRouter.createQuest lib body) s = s).
Proof.
  assert (Hcreated : QuestRouter.validationErrors lib body = [] ->
                     forall doc s1,
                       QuestRouter.Quest_create lib body s = (Normal doc, s1) ->
                       NewQuest.type body = Some "daily" \/
                       NewQuest.type body = Some "weekly").
  { intros Hval doc s1 E.
    pose proof (Quest_create_inv lib body s) as I. rewrite E in I.
    destruct I as (_ & _ & Hty & _ & Hschema).
    destruct (validation_passed lib body Hval) as [Hroute _].
    rewrite <- Hty in Hroute |- *. cbn [QuestRouter.isIn] in Hroute.
    destruct (route_and_schema_types _ Hroute Hschema) as [->| ->]; auto. }
  split; [|split].
  - intros r Hr Hcode.
    unfold replyOf, QuestRouter.createQuest in Hr.
    destruct (QuestRouter.validationErrors lib body) as [|err errs] eqn:Hval.
    2:{ cbn in Hr. injection Hr as <-. discriminate Hcode. }
    unfold htry_catch, hbind in Hr.
    destruct (QuestRouter.Quest_create lib body s) as [[doc|e] s1] eqn:E.
    + exact (Hcreated eq_refl doc s1 eq_refl).
    + cbn in Hr. injection Hr as <-. discriminate Hcode.
  - intros Hval Hd Hw.
    unfold replyOf, serverAfter, QuestRouter.createQuest. rewrite Hval.
    unfold htry_catch, hbind.
    pose proof (Quest_create_inv lib body s) as I.
    destruct (QuestRouter.Quest_create lib body s) as [[doc|e] s1] eqn:E.
    + exfalso. destruct (Hcreated Hval doc s1 eq_refl); contradiction.
    + destruct I as [-> ->]. split; reflexivity.
  - intros Hty.
    assert (Herr : In "type" (QuestRouter.validationErrors lib body)).
    { unfold QuestRouter.validationErrors. rewrite Hty.
      cbn [QuestRouter.isIn QuestRouter.routeTypes existsb String.eqb
           Ascii.eqb Bool.eqb orb].
      rewrite !in_app_iff. right. right. right. left. left. reflexivity. }
    unfold replyOf, serverAfter, QuestRouter.createQuest.
    destruct (QuestRouter.validationErrors lib body) as [|err errs];
      [destruct Herr|].
    exists (err :: errs). repeat split. exact Herr.
Qed.

(** A body that is created, and one of a type the validator admits and the
    schema refuses. *)
Lemma quest_creation_examples :
  let lib := plainLibraries "64b7f0c2a1d3e4f5a6b7c842" 99999 in
  let body ty := NewQuest.mk (Some "Tap master") (Some "Tap 1000 times")
                   (IntValue 500) (Some ty) (Some "tap") None None
                   (IntValue 1000) (Some "2030-01-01") in
  let s := serverOf (storeOf []) in
  replyOf (QuestRouter.createQuest lib (body "daily")) s
  = Normal (reply 201
              (PQuest (Quest.mk "64b7f0c2a1d3e4f5a6b7c842" "Tap master"
                         "Tap 1000 times" 500 "daily" 99999))) /\
  replyOf (QuestRouter.createQuest lib (body "tap")) s
  = Normal (reply 500
              (PMessageError "Error creating quest"
                 "Quest validation failed: type: `tap` is not a valid enum value for path `type`.")).
Proof. split; reflexivity. Qed.

Lemma quest_creation_types_witness :
  let lib := plainLibraries "64b7f0c2a1d3e4f5a6b7c842" 99999 in
  let body := NewQuest.mk (Some "Tap master") (Some "Tap 1000 times")
                (IntValue 500) (Some "tap") (Some "tap") None None
                (IntValue 1000) (Some "2030-01-01") in
  let s := serverOf (storeOf []) in
  replyOf (QuestRouter.createQuest lib body) s
  = Normal (reply 500 (PMessageError "Error creating quest"
                         (typeEnumFailure body))) /\
  world (serverAfter (QuestRouter.createQuest lib body) s) = world s.
Proof.
  intros lib body s.
  apply (proj1 (proj2 (@quest_creation_types lib body s)));
    [reflexivity|discriminate|discriminate].
Defined.

Lemma verifier_daily_weekly (env : Env) (u : User.t) (q : Quest.t) (w : World) :
  Quest.type q = "daily" \/ Quest.type q = "weekly" ->
  response (QuestRoutes.verifyQuestCompletion env (Some u) (Some q)) w
  = Normal true.
Proof.
  intros [H|H]; unfold response, QuestRoutes.verifyQuestCompletion;
    rewrite H; reflexivity.
Qed.

(** X17. A quest that [POST /] has created can be claimed at once by any
    user who does not hold its id: the claim is credited without any check
    of what the user did, and, the reward being at least 1, the user's [xp]
    strictly grows. *)
Theorem created_quest_is_claimable (lib : Libraries) (body : NewQuest.t)
    (s : Server) (env : Env) (tid : Z) (u : User.t) (doc : Quest.t) :
  replyOf (QuestRouter.createQuest lib body) s
  = Normal (reply 201 (PQuest doc)) ->
  Quest.findById (newObjectId lib) (quests (world s)) = None ->
  User.findOneByTelegramId tid (users (world s)) = Some u ->
  ~ In (newObjectId lib) (User.completedQuests u) ->
  let w1 := world (serverAfter (QuestRouter.createQuest lib body) s) in
  credited env tid (newObjectId lib) w1 u doc /\
  1 <= Quest.xpReward doc.
Proof.
  intros Hreply Hfresh Hfind Hnin w1.
  unfold replyOf, serverAfter, QuestRouter.createQuest in *.
  destruct (QuestRouter.validationErrors lib body) as [|err errs] eqn:Hval;
    [|discriminate Hreply].
  unfold htry_catch, hbind in *.
  pose proof (Quest_create_inv lib body s) as I.
  destruct (QuestRouter.Quest_create lib body s) as [[doc'|e] s1] eqn:E;
    [|discriminate Hreply].
  cbn [fst snd journalLog hret] in *. injection Hreply as ->.
  destruct I as (-> & Hid & Hty & Hxp & Hschema).
  destruct (validation_passed lib body Hval) as [Hroute Hmin].
  rewrite <- Hty in Hroute. cbn [QuestRouter.isIn] in Hroute.
  rewrite <- Hxp in Hmin. cbn [QuestRouter.isIntMin1] in Hmin.
  apply Z.leb_le in Hmin. split; [|exact Hmin].
  subst w1. cbn [world].
  set (w1 := with_quests _ _).
  assert (Hq : Quest.findById (newObjectId lib) (quests w1) = Some doc)
    by (apply questFindById_app_new; assumption).
  assert (Hver : response (QuestRoutes.verifyQuestCompletion env (Some u)
                             (Some doc)) w1 = Normal true)
    by (apply verifier_daily_weekly;
        exact (route_and_schema_types _ Hroute Hschema)).
  apply (claim_credit env tid (newObjectId lib) w1 Hfind Hq Hnin Hver).
  reflexivity.
Qed.

Lemma created_quest_is_claimable_witness :
  let lib := plainLibraries "64b7f0c2a1d3e4f5a6b7c842" 99999 in
  let body := NewQuest.mk (Some "Check in") (Some "Open the app")
                (IntValue 50) (Some "weekly") (Some "login") None None
                IntAbsent (Some "2030-01-01") in
  let u := player 1 11 10 1 0 0 None 0 None in
  let s := serverOf (storeOf [u]) in
  let doc := Quest.mk "64b7f0c2a1d3e4f5a6b7c842" "Check in" "Open the app" 50 "weekly" 99999 in
  let w1 := world (serverAfter (QuestRouter.createQuest lib body) s) in
  credited (quietEnv 1000) 11 "64b7f0c2a1d3e4f5a6b7c842" w1 u doc /\ 1 <= 50.
Proof.
  intros lib body u s doc w1.
  apply (@created_quest_is_claimable lib body s (quietEnv 1000) 11 u doc).
  - reflexivity.
  - reflexivity.
  - reflexivity.
  - intros [].
Defined.

Lemma listQuests_run (env : Env) (tid : Z) (s : Server) (u : User.t) :
  User.findOneByTelegramId tid (users (world s)) = Some u ->
  QuestRouter.listQuests env tid s
  = (Normal
       (reply 200
          (PQuests
             (map (fun q =>
                     mkListedQuest q
                       (existsb (String.eqb (Quest._id q))
                          (User.completedQuests u)))
                (filter (fun q => Quest.expiresAt q >? now env)
                   (quests (world s)))))),
     s).
Proof.
  intros Hfind.
  unfold QuestRouter.listQuests, htry_catch, hbind, lift,
    User_findOne_telegramId, QuestRouter.Quest_aggregate, hret.
  rewrite Hfind. destruct s. reflexivity.
Qed.

(** X18. The listing follows the claims: a quest that has not expired is
    listed with [claimed: false] to a user before the claim that succeeds,
    and with [claimed: true] after it. *)
Theorem claim_shows_in_listing (env env' : Env) (tid : Z) (qid : string)
    (s : Server) (u : User.t) (q : Quest.t) :
  User.findOneByTelegramId tid (users (world s)) = Some u ->
  Quest.findById qid (quests (world s)) = Some q ->
  succeeded (response (QuestRoutes.claimQuest env tid qid) (world s)) ->
  now env' < Quest.expiresAt q ->
  let s1 := mkServer (after (QuestRoutes.claimQuest env tid qid) (world s))
              (journal s) in
  exists before after,
    replyOf (QuestRouter.listQuests env' tid) s
    = Normal (reply 200 (PQuests before)) /\
    In (mkListedQuest q false) before /\
    replyOf (QuestRouter.listQuests env' tid) s1
    = Normal (reply 200 (PQuests after)) /\
    In (mkListedQuest q true) after.
Proof.
  intros Hfind Hq Hs Hexp s1.
  destruct (questFindById_spec _ _ Hq) as [Hin Hid].
  destruct (claim_step env tid qid (world s) Hfind) as (Q & Hcase).
  destruct Hcase as [(_ & _ & Hns)|(q' & Hq' & Hnin & _ & F1 & _)];
    [contradiction|].
  assert (q' = q) by congruence. subst q'.
  assert (Hlisted : In q (filter (fun q0 => Quest.expiresAt q0 >? now env')
                            (quests (world s)))).
  { apply filter_In. split; [assumption|]. now apply Z.gtb_lt. }
  unfold replyOf.
  rewrite (listQuests_run env' tid s Hfind).
  rewrite (listQuests_run env' tid s1 F1).
  cbn [fst world s1]. rewrite Q.
  do 2 eexists. split; [reflexivity|]. split; [|split; [reflexivity|]].
  - apply in_map_iff. exists q. split; [|assumption]. f_equal.
    rewrite Hid. destruct (existsb _ _) eqn:E; [|reflexivity].
    apply includes_In in E. contradiction.
  - apply in_map_iff. exists q. split; [|assumption]. f_equal.
    rewrite Hid. apply includes_In. cbn. apply in_or_app. right. now left.
Qed.

Lemma claim_shows_in_listing_witness :
  let q := Quest.mk "64b7f0c2a1d3e4f5a6b7c8d1" "Daily check-in" "Open the app"
             50 "daily" 99999 in
  let u := player 1 11 10 1 0 0 None 0 None in
  let s := serverOf (questStore u q) in
  let env := quietEnv 1000 in
  let s1 := mkServer (after (QuestRoutes.claimQuest env 11 "64b7f0c2a1d3e4f5a6b7c8d1") (world s))
              (journal s) in
  exists before after,
    replyOf (QuestRouter.listQuests env 11) s
    = Normal (reply 200 (PQuests before)) /\
    In (mkListedQuest q false) before /\
    replyOf (QuestRouter.listQuests env 11) s1
    = Normal (reply 200 (PQuests after)) /\
    In (mkListedQuest q true) after.
Proof.
  intros q u s env s1.
  apply (@claim_shows_in_listing env env 11 "64b7f0c2a1d3e4f5a6b7c8d1" s u q).
  - reflexivity.
  - reflexivity.
  - eexists. reflexivity.
  - reflexivity.
Defined.

(** X19. The claim handler does not look at [expiresAt]: a quest that has
    expired is no longer in the listing, and a claim of it that passes the
    verifier is credited all the same. *)
Theorem expired_quest_is_claimable (env : Env) (tid : Z) (qid : string)
    (s : Server) (u : User.t) (q : Quest.t) :
  User.findOneByTelegramId tid (users (world s)) = Some u ->
  Quest.findById qid (quests (world s)) = Some q ->
  ~ In qid (User.completedQuests u) ->
  response (QuestRoutes.verifyQuestCompletion env (Some u) (Some q)) (world s)
  = Normal true ->
  Quest.expiresAt q <= now env ->
  (exists listed,
     replyOf (QuestRouter.listQuests env tid) s
     = Normal (reply 200 (PQuests listed)) /\
     forall l, In l listed -> listedQuest l <> q) /\
  credited env tid qid (world s) u q.
Proof.
  intros Hfind Hq Hnin Hver Hexp. split.
  - unfold replyOf. rewrite (listQuests_run env tid s Hfind). cbn [fst].
    eexists. split; [reflexivity|].
    intros l Hl Heq. apply in_map_iff in Hl. destruct Hl as (q0 & <- & Hin).
    cbn in Heq. subst q0. apply filter_In in Hin. destruct Hin as [_ Hgt].
    apply Z.gtb_lt in Hgt. lia.
  - apply (claim_credit env tid qid (world s) Hfind Hq Hnin Hver). reflexivity.
Qed.

Lemma expired_quest_is_claimable_witness :
  let q := Quest.mk "64b7f0c2a1d3e4f5a6b7c8d1" "Daily check-in" "Open the app"
             50 "daily" 500 in
  let u := player 1 11 10 1 0 0 None 0 None in
  let s := serverOf (questStore u q) in
  let env := quietEnv 1000 in
  (exists listed,
     replyOf (QuestRouter.listQuests env 11) s
     = Normal (reply 200 (PQuests listed)) /\
     forall l, In l listed -> listedQuest l <> q) /\
  credited env 11 "64b7f0c2a1d3e4f5a6b7c8d1" (world s) u q.
Proof.
  intros q u s env.
  apply (@expired_quest_is_claimable env 11 "64b7f0c2a1d3e4f5a6b7c8d1" s u q).
  - reflexivity.
  - reflexivity.
  - intros [].
  - reflexivity.
  - cbn. lia.
Defined.







(** ** Referral propagation without a referrer *)

(** X21. [distributeReferralXP] returns at once, with no write and no
    log line, when the user is unknown, when the user has no [referredBy],
    or when [referredBy] points at a user who is not in the store; this
    does not depend on what the module's scope binds. *)
Theorem referral_without_referrer (scope : list string) (id xpGained : Z)
    (w : World) :
  User.findById id (users w) = None \/
  (exists u,
     User.findById id (users w) = Some u /\
     (User.referredBy u = None \/
      exists r, User.referredBy u = Some r /\
                User.findById r (users w) = None)) ->
  UserController.distributeReferralXP_in scope id xpGained w = (Normal tt, w).
Proof.
  intros H.
  unfold UserController.distributeReferralXP_in, try_catch, bind, User_findById.
  destruct H as [->|(u & -> & [->|(r & -> & ->)])]; reflexivity.
Qed.

Lemma referral_without_referrer_witness :
  let w := storeOf [player 1 11 0 1 0 0 None 0 (Some 7)] in
  UserController.distributeReferralXP_in
    ("Referral" :: UserController.moduleScope) 1 1000 w
  = (Normal tt, w).
Proof.
  intros w.
  apply (@referral_without_referrer
           ("Referral" :: UserController.moduleScope) 1 1000 w).
  right. exists (player 1 11 0 1 0 0 None 0 (Some 7)).
  split; [reflexivity|]. right. exists 7. split; reflexivity.
Defined.
